(** * Walktour: the guided-tour component and its tooltip placement

    A shallow embedding of [src/index.tsx] (the [Walktour] component with its
    helpers [getStep], [getTargetData] and [TourMask]) together with the two
    functions it imports from [./positioning], [getElementCoords] and
    [getTooltipPosition].

    JavaScript numbers are modelled as exact rationals ([Q]): element
    rectangles are fractional in general and the mask rounds them.  [NaN] and
    the infinities are outside that model.  For the step index, where they
    matter, the navigation is given a second time on binary64 numbers
    (module [Double]). *)

From Stdlib Require Import Floats.
From Stdlib Require Import QArith Qround Qabs Lqa Lia.
From stdpp Require Import gmap strings list.

Local Open Scope Q_scope.

(** ** Numbers *)

(** Modelled from the spec: the rounding [getElementCoords] applies (spec
    4.1, "rounded to the nearest integer pixel"); a tie goes up, as with
    [Math.round]. *)
Definition round (q : Q) : Q := inject_Z (Qfloor (q + (1 # 2))).

(** [a >= b] and [a < b] on numbers, as booleans. *)
Definition geb (a b : Q) : bool := Qle_bool b a.
Definition ltb (a b : Q) : bool := negb (Qle_bool b a).

(** The array index a number denotes: [xs[q]] reads an element only when [q]
    is a non-negative integer. *)
Definition arrayIndex (q : Q) : option nat :=
  let r := Qred q in
  if (Pos.eqb (Qden r) 1 && Z.leb 0 (Qnum r))%bool
  then Some (Z.to_nat (Qnum r)) else None.

(** [steps.length] as a number. *)
Definition lengthQ {A} (l : list A) : Q := inject_Z (Z.of_nat (length l)).

(** ** Geometry *)

(** [ClientRect], as [getBoundingClientRect] returns it: relative to the
    viewport. *)
Module ClientRect.
Record t := mk {
  top : Q; left : Q; width : Q; height : Q; right : Q; bottom : Q
}.
End ClientRect.

(** [Coords]: a position on the page. *)
Module Coords.
Record t := mk { x : Q; y : Q }.
End Coords.

(** Modelled from the spec: the ambient window state a call of
    [./positioning] reads, scroll offset and viewport size, as an explicit
    snapshot (spec 4.2, 9). *)
Record Viewport := mkViewport {
  scrollX : Q; scrollY : Q; innerWidth : Q; innerHeight : Q
}.

(** Modelled from the spec: [getElementCoords] of [./positioning], which is
    not among the sources (spec 4.1, [toAbsoluteCoords]).  It adds the scroll
    offset to the rectangle's top-left corner and, when asked, rounds each
    coordinate to the nearest integer. *)
Definition getElementCoords (vp : Viewport) (rect : ClientRect.t)
    (roundToInt : bool) : Coords.t :=
  let cx := ClientRect.left rect + scrollX vp in
  let cy := ClientRect.top rect + scrollY vp in
  if roundToInt then Coords.mk (round cx) (round cy) else Coords.mk cx cy.

(** ** Exceptions *)

(** [Error] is what the component throws itself; [TypeError] is the reading
    of a property (named) from [undefined]; [SyntaxError] is
    [querySelector]'s answer to a selector it cannot parse. *)
Inductive Exn :=
| Error (msg : string)
| TypeError (property : string)
| SyntaxError (selector : string).

(** A computation that returns a value or throws. *)
Definition Result (A : Type) : Type := Exn + A.
Definition ok {A} (a : A) : Result A := inr a.
Definition throw {A} (e : Exn) : Result A := inl e.
Definition bind {A B} (m : Result A) (k : A -> Result B) : Result B :=
  match m with inl e => inl e | inr a => k a end.

Notation "'let*' p ':=' m 'in' k" := (bind m (fun p => k))
  (at level 10, p pattern, m at level 100, k at level 200).

(** ** The document *)

Record Element := mkElement { getBoundingClientRect : ClientRect.t }.

(** [document.querySelector] finds the first matching element, finds none
    ([null]), or throws on a selector it cannot parse;
    [document.getElementById] finds an element or none. *)
Record Document := mkDocument {
  document_querySelector : string -> Result (option Element);
  document_getElementById : string -> option Element
}.

(** The double quote character. *)
Definition quote : string := String (Ascii.ascii_of_nat 34) EmptyString.

(** [getTargetData] (index.tsx, 232-241). *)
Definition getTargetData (document : Document) (selector : string)
    : Result ClientRect.t :=
  let* element := document_querySelector document selector in
  let targetData := option_map getBoundingClientRect element in
  match targetData with
  | Some r => ok r
  | None =>
      throw (Error ("element specified by  " +:+ quote +:+ selector +:+ quote
                    +:+ " could not be found"))
  end.

(** ** Tooltip placement *)

(** Modelled from the spec: how far a candidate tooltip rectangle passes each
    of the four sides of the viewport; zero or less means that side is inside
    (spec 4.2, step 2). *)
Record Overflow := mkOverflow {
  overTop : Q; overRight : Q; overBottom : Q; overLeft : Q
}.

(** Modelled from the spec: what [./positioning], which is not among the
    sources, declares and the spec leaves open (spec 3): the finite set of
    orientations, its default priority order (a first orientation and the
    ones after it), and for each orientation the tooltip's coordinates and
    its overflow, as functions of the viewport read at call time, the target
    rectangle, the tooltip rectangle, the padding and the separation. *)
Class Positioning := {
  CardinalOrientation : Type;
  defaultOrientation : CardinalOrientation;
  otherOrientations : list CardinalOrientation;
  placement : CardinalOrientation -> Viewport -> ClientRect.t -> ClientRect.t ->
              option Q -> option Q -> Coords.t;
  overflow : CardinalOrientation -> Viewport -> ClientRect.t -> ClientRect.t ->
             option Q -> option Q -> Overflow
}.

(** Modelled from the spec: the default order, covering all orientations. *)
Definition defaultOrientations `{Positioning} : list CardinalOrientation :=
  defaultOrientation :: otherOrientations.

(** The argument of [getTooltipPosition], with the fields the call in
    index.tsx (103-109) passes (spec 3, [PlacementRequest]).  [tooltip] is
    absent while the tooltip has not been measured; [padding] and
    [tooltipSeparation] come out of the options merge and are handed over as
    they are. *)
Module Request.
Record t `{Positioning} := mk {
  target : ClientRect.t;
  tooltip : option ClientRect.t;
  padding : option Q;
  tooltipSeparation : option Q;
  orientationPreferences : option (list CardinalOrientation)
}.
Arguments mk {_} _ _ _ _ _.
End Request.

(** Modelled from the spec: an orientation fits when all four overflow
    amounts are at most zero (spec 4.2, step 3). *)
Definition fits (o : Overflow) : bool :=
  (Qle_bool (overTop o) 0 && Qle_bool (overRight o) 0
   && Qle_bool (overBottom o) 0 && Qle_bool (overLeft o) 0)%bool.

(** Modelled from the spec: the list that is tried is the caller's, or the
    default order when the caller gave none or an empty one (spec 3). *)
Definition effectivePreferences `{Positioning} (req : Request.t)
    : list CardinalOrientation :=
  match Request.orientationPreferences req with
  | Some (o :: os) => o :: os
  | _ => defaultOrientations
  end.

(** Modelled from the spec: an orientation's coordinates and its fit for a
    request (spec 4.2, steps 1 to 3). *)
Definition placementFor `{Positioning} (vp : Viewport) (req : Request.t)
    (tip : ClientRect.t) (o : CardinalOrientation) : Coords.t :=
  placement o vp (Request.target req) tip (Request.padding req)
            (Request.tooltipSeparation req).

Definition orientationFits `{Positioning} (vp : Viewport) (req : Request.t)
    (tip : ClientRect.t) (o : CardinalOrientation) : bool :=
  fits (overflow o vp (Request.target req) tip (Request.padding req)
                 (Request.tooltipSeparation req)).

(** Modelled from the spec: the candidates are gone through in order and
    the first that passes the test is taken at once (spec 4.2). *)
Fixpoint firstFit {A} (test : A -> bool) (candidates : list A) : option A :=
  match candidates with
  | [] => None
  | o :: rest => if test o then Some o else firstFit test rest
  end.

(** Modelled from the spec: first fit, else the head of the list whatever
    its fit (spec 4.2). *)
Definition chooseOrientation `{Positioning} (vp : Viewport) (req : Request.t)
    (tip : ClientRect.t) : CardinalOrientation :=
  let prefs := effectivePreferences req in
  match firstFit (orientationFits vp req tip) prefs with
  | Some o => o
  | None => hd defaultOrientation prefs
  end.

(** Modelled from the spec: [getTooltipPosition] of [./positioning], which
    is not among the sources (spec 4.2, [resolvePlacement]).  No position
    without a measured tooltip; otherwise the coordinates of the first
    orientation in priority order that fits the viewport, or of the first
    orientation of the list when none fits. *)
Definition getTooltipPosition `{Positioning} (vp : Viewport) (req : Request.t)
    : option Coords.t :=
  match Request.tooltip req with
  | None => None
  | Some tip => Some (placementFor vp req tip (chooseOrientation vp req tip))
  end.

(** ** Styles *)

Inductive CSSValue :=
| CssUndefined
| CssNum (n : Q)
| CssStr (s : string).

(** [React.CSSProperties]: an object from property names to values. *)
Abbreviation CSSProperties := (gmap string CSSValue).

Definition cssNum (n : option Q) : CSSValue :=
  match n with Some q => CssNum q | None => CssUndefined end.
Definition cssStr (s : option string) : CSSValue :=
  match s with Some t => CssStr t | None => CssUndefined end.

(** The declaration React applies for a property: a property whose value is
    [undefined] is skipped like one that is not there. *)
Definition applied (style : CSSProperties) (property : string)
    : option CSSValue :=
  match style !! property with
  | Some CssUndefined => None
  | v => v
  end.

(** [WalktourStyles] of [./defaultstyles], with the members index.tsx
    reads. *)
Module Styles.
Record t := mk {
  container : CSSProperties;
  title : CSSProperties;
  description : CSSProperties;
  footer : CSSProperties;
  tertiaryButton : CSSProperties;
  secondaryButton : CSSProperties;
  primaryButton : CSSProperties;
  disabledButton : CSSProperties
}.
End Styles.

(** [defaultStyles], the constant of [./defaultstyles], which is not among
    the sources: a parameter. *)
Class Styling := { defaultStyles : Styles.t }.

(** ** Options, steps and props *)

(** An optional property of an object: not there, or there with a value,
    which may be [undefined]. *)
Inductive Optional (A : Type) :=
| Absent
| Present (v : option A).
Arguments Absent {A}.
Arguments Present {A} v.

(** Reading the property. *)
Definition read {A} (p : Optional A) : option A :=
  match p with Absent => None | Present v => v end.

(** One property of [{...under, ...over}]: a property [over] has, whatever
    its value, replaces [under]'s. *)
Definition spread {A} (under over : Optional A) : Optional A :=
  match over with Absent => under | Present _ => over end.

(** A caller's render callback, known by its name. *)
Definition Renderer := string.

(** [WalktourOptions] (index.tsx, 14-26). *)
Record WalktourOptions `{Positioning} := mkOptions {
  disableMaskInteraction : Optional bool;
  orientationPreferences : Optional (list CardinalOrientation);
  maskPadding : Optional Q;
  tooltipSeparation : Optional Q;
  tooltipWidth : Optional Q;
  transition : Optional string;
  customTooltipRenderer : Optional Renderer;
  prevLabel : Optional string;
  nextLabel : Optional string;
  skipLabel : Optional string;
  styles : Optional Styles.t
}.
Arguments mkOptions {_} _ _ _ _ _ _ _ _ _ _ _.

(** [Step] (index.tsx, 28-35): the options and the step's own members. *)
Record Step `{Positioning} := mkStep {
  stepOptions : WalktourOptions;
  querySelector : string;
  title : string;
  description : string;
  customTitleRenderer : Optional Renderer;
  customDescriptionRenderer : Optional Renderer;
  customFooterRenderer : Optional Renderer
}.
Arguments mkStep {_} _ _ _ _ _ _ _.

(** [WalktourProps] (index.tsx, 37-41). *)
Record WalktourProps `{Positioning} := mkProps {
  propsOptions : WalktourOptions;
  steps : list Step;
  isVisible : bool;
  initialStepIndex : Optional Q
}.
Arguments mkProps {_} _ _ _ _.

(** The options of an object that has none of them. *)
Definition noOptions `{Positioning} : WalktourOptions :=
  mkOptions Absent Absent Absent Absent Absent Absent Absent Absent Absent
            Absent Absent.

(** [walktourDefaultProps] (index.tsx, 43-53). *)
Definition walktourDefaultProps `{Positioning} `{Styling} : WalktourOptions := {|
  prevLabel := Present (Some "prev");
  nextLabel := Present (Some "next");
  skipLabel := Present (Some "skip");
  styles := Present (Some defaultStyles);
  tooltipWidth := Present (Some 250);
  maskPadding := Present (Some 5);
  tooltipSeparation := Present (Some 10);
  transition := Present (Some "top 200ms ease, left 200ms ease");
  disableMaskInteraction := Present (Some false);
  orientationPreferences := Absent;
  customTooltipRenderer := Absent
|}.

(** [{...under, ...over}] on the options. *)
Definition spreadOptions `{Positioning} (under over : WalktourOptions)
    : WalktourOptions := {|
  disableMaskInteraction :=
    spread (disableMaskInteraction under) (disableMaskInteraction over);
  orientationPreferences :=
    spread (orientationPreferences under) (orientationPreferences over);
  maskPadding := spread (maskPadding under) (maskPadding over);
  tooltipSeparation := spread (tooltipSeparation under) (tooltipSeparation over);
  tooltipWidth := spread (tooltipWidth under) (tooltipWidth over);
  transition := spread (transition under) (transition over);
  customTooltipRenderer :=
    spread (customTooltipRenderer under) (customTooltipRenderer over);
  prevLabel := spread (prevLabel under) (prevLabel over);
  nextLabel := spread (nextLabel under) (nextLabel over);
  skipLabel := spread (skipLabel under) (skipLabel over);
  styles := spread (styles under) (styles over)
|}.

(** [getStep] (index.tsx, 228-230): plain indexing, [undefined] outside the
    array. *)
Definition getStep `{Positioning} (stepIndex : Q) (steps : list Step)
    : option Step :=
  match arrayIndex stepIndex with
  | Some i => steps !! i
  | None => None
  end.

(** The options of [{...walktourDefaultProps, ...props, ...currentStepContent}]
    (index.tsx, 84-88); spreading [undefined] adds nothing. *)
Definition mergedOptions `{Positioning} `{Styling} (props : WalktourProps)
    (currentStepContent : option Step) : WalktourOptions :=
  spreadOptions (spreadOptions walktourDefaultProps (propsOptions props))
                (match currentStepContent with
                 | Some s => stepOptions s
                 | None => noOptions
                 end).

(** A member only steps have, read from the merged object. *)
Definition stepMember `{Positioning} {A} (member : Step -> Optional A)
    (currentStepContent : option Step) : option A :=
  match currentStepContent with
  | Some s => read (member s)
  | None => None
  end.

(** Reading a member of the current step, which may be [undefined]. *)
Definition ofStep `{Positioning} {A} (currentStepContent : option Step)
    (property : string) (member : Step -> A) : Result A :=
  match currentStepContent with
  | Some s => ok (member s)
  | None => throw (TypeError property)
  end.

(** ** State and navigation *)

(** The four [useState] cells (index.tsx, 63-66). *)
Record State := mkState {
  isVisibleState : bool;
  tooltipPosition : option Coords.t;
  targetData : option ClientRect.t;
  currentStepIndex : Q
}.

Definition setVisible (v : bool) (st : State) : State :=
  mkState v (tooltipPosition st) (targetData st) (currentStepIndex st).
Definition setTooltipPosition (p : option Coords.t) (st : State) : State :=
  mkState (isVisibleState st) p (targetData st) (currentStepIndex st).
Definition setTargetData (r : option ClientRect.t) (st : State) : State :=
  mkState (isVisibleState st) (tooltipPosition st) r (currentStepIndex st).
Definition setCurrentStepIndex (i : Q) (st : State) : State :=
  mkState (isVisibleState st) (tooltipPosition st) (targetData st) i.

(** [initialStepIndex || 0]. *)
Definition orZero (n : option Q) : Q :=
  match n with
  | Some q => if Qeq_bool q 0 then 0 else q
  | None => 0
  end.

Definition initialState `{Positioning} (props : WalktourProps) : State :=
  mkState (isVisible props) None None (orZero (read (initialStepIndex props))).

(** [goToStep], [next], [prev], [skip] (index.tsx, 115-133). *)
Definition goToStep `{Positioning} (steps : list Step) (stepIndex : Q)
    (st : State) : State :=
  if (geb stepIndex (lengthQ steps) || ltb stepIndex 0)%bool then st
  else setCurrentStepIndex stepIndex st.

Definition next `{Positioning} (steps : list Step) (st : State) : State :=
  goToStep steps (currentStepIndex st + 1) st.

Definition prev `{Positioning} (steps : list Step) (st : State) : State :=
  goToStep steps (currentStepIndex st - 1) st.

Definition skip `{Positioning} (steps : list Step) (st : State) : State :=
  setVisible false (goToStep steps 0 st).

(** The calls [WalktourLogic] and the buttons offer. *)
Inductive Action :=
| Next
| Prev
| Skip
| GoToStep (stepNumber : Q).

Definition perform `{Positioning} (steps : list Step) (a : Action)
    (st : State) : State :=
  match a with
  | Next => next steps st
  | Prev => prev steps st
  | Skip => skip steps st
  | GoToStep n => goToStep steps n st
  end.

Definition performAll `{Positioning} (steps : list Step) (acts : list Action)
    (st : State) : State :=
  fold_left (fun s a => perform steps a s) acts st.

(** The current step index lies in [0, steps.length). *)
Definition inRange `{Positioning} (steps : list Step) (st : State) : Prop :=
  0 <= currentStepIndex st < lengthQ steps.

(** The current step index is the position of one of the steps. *)
Definition onStep `{Positioning} (steps : list Step) (st : State) : Prop :=
  exists i : nat,
    currentStepIndex st == inject_Z (Z.of_nat i) /\ (i < length steps)%nat.

(** A call whose argument, if it has one, is a whole number. *)
Definition wholeStep (a : Action) : Prop :=
  match a with
  | GoToStep n => exists z : Z, n == inject_Z z
  | _ => True
  end.

(** Whether a call is [skip], the only one that calls [setVisible]. *)
Definition isSkip (a : Action) : bool :=
  match a with Skip => true | _ => false end.

(** [keyPressHandler] (index.tsx, 135-150). *)
Definition keyPressHandler `{Positioning} (steps : list Step) (key : string)
    (st : State) : State :=
  if String.eqb key "Escape" then skip steps st
  else if String.eqb key "ArrowRight" then next steps st
  else if String.eqb key "ArrowLeft" then prev steps st
  else st.

(** The effect run once after the first render (index.tsx, 90-92). *)
Definition mountEffect `{Positioning} (props : WalktourProps) (st : State)
    : State :=
  goToStep (steps props) (currentStepIndex st) st.

(** The effect run when the step index changes (index.tsx, 94-113).  Giving
    the tooltip the focus leaves the state alone and is left out. *)
Definition placementEffect `{Positioning} `{Styling} (props : WalktourProps)
    (document : Document) (vp : Viewport) (st : State) : Result State :=
  let currentStepContent := getStep (currentStepIndex st) (steps props) in
  let merged := mergedOptions props currentStepContent in
  if negb (isVisibleState st) then ok st
  else
    let tooltip := document_getElementById document "walktour-tooltip" in
    let tooltipData := option_map getBoundingClientRect tooltip in
    let* selector :=
      ofStep (getStep (currentStepIndex st) (steps props)) "querySelector"
             querySelector in
    let* found := getTargetData document selector in
    ok (setTooltipPosition
          (getTooltipPosition vp
             (Request.mk found tooltipData (read (maskPadding merged))
                (read (tooltipSeparation merged))
                (read (orientationPreferences merged))))
          (setTargetData (Some found) st)).

(** ** Navigation on binary64 numbers

    The state and [goToStep], [next], [prev], [skip] (index.tsx, 63-66 and
    115-133) once more, with the step index the IEEE double that JavaScript
    holds: every comparison with [NaN] is false, and sums are rounded. *)
Module Double.

Record State := mkState {
  isVisibleState : bool;
  tooltipPosition : option Coords.t;
  targetData : option ClientRect.t;
  currentStepIndex : float
}.

Definition setVisible (v : bool) (st : State) : State :=
  mkState v (tooltipPosition st) (targetData st) (currentStepIndex st).
Definition setCurrentStepIndex (i : float) (st : State) : State :=
  mkState (isVisibleState st) (tooltipPosition st) (targetData st) i.

(** [steps.length], a whole number below 2^32. *)
Definition length `{Positioning} (steps : list Step) : float :=
  PrimFloat.of_uint63 (Uint63.of_Z (Z.of_nat (List.length steps))).

Definition goToStep `{Positioning} (steps : list Step) (stepIndex : float)
    (st : State) : State :=
  if (PrimFloat.leb (length steps) stepIndex
      || PrimFloat.ltb stepIndex 0%float)%bool
  then st
  else setCurrentStepIndex stepIndex st.

Definition next `{Positioning} (steps : list Step) (st : State) : State :=
  goToStep steps (PrimFloat.add (currentStepIndex st) 1%float) st.

Definition prev `{Positioning} (steps : list Step) (st : State) : State :=
  goToStep steps (PrimFloat.sub (currentStepIndex st) 1%float) st.

Definition skip `{Positioning} (steps : list Step) (st : State) : State :=
  setVisible false (goToStep steps 0%float st).

Inductive Action :=
| Next
| Prev
| Skip
| GoToStep (stepNumber : float).

Definition perform `{Positioning} (steps : list Step) (a : Action)
    (st : State) : State :=
  match a with
  | Next => next steps st
  | Prev => prev steps st
  | Skip => skip steps st
  | GoToStep n => goToStep steps n st
  end.

Definition performAll `{Positioning} (steps : list Step) (acts : list Action)
    (st : State) : State :=
  fold_left (fun s a => perform steps a s) acts st.

(** [0 <= currentStepIndex < steps.length], as JavaScript compares. *)
Definition inRange `{Positioning} (steps : list Step) (st : State) : Prop :=
  PrimFloat.leb 0%float (currentStepIndex st) = true
  /\ PrimFloat.ltb (currentStepIndex st) (length steps) = true.

(** A call whose argument, if it has one, is not [NaN]. *)
Definition notNaN (a : Action) : Prop :=
  match a with
  | GoToStep n => PrimFloat.is_nan n = false
  | _ => True
  end.

End Double.

(** A binary64 number that is not [NaN]. *)
Definition number (x : float) : Prop := Prim2SF x <> S754_nan.

(** ** Rendering *)

(** [TourMask] (index.tsx, 243-263): the style of the cutout, or nothing
    without a target.  A [padding] left undefined is 0 and a [roundedCutout]
    left undefined is [true], the parameters' defaults. *)
Definition TourMask (vp : Viewport) (target : option ClientRect.t)
    (disableMaskInteraction : option bool) (padding : option Q)
    (roundedCutout : option bool) : option CSSProperties :=
  match target with
  | None => None
  | Some target =>
      let padding := default 0 padding in
      let roundedCutout := default true roundedCutout in
      let coords := getElementCoords vp target true in
      Some (<["pointerEvents" :=
                CssStr (if default false disableMaskInteraction
                        then "auto" else "none")]>
           (<["borderRadius" :=
                if roundedCutout then CssStr "5px" else CssNum 0]>
           (<["boxShadow" := CssStr "0 0 0 9999px rgb(0,0,0,0.6)"]>
           (<["width" := CssNum (ClientRect.width target + padding * 2)]>
           (<["height" := CssNum (ClientRect.height target + padding * 2)]>
           (<["left" := CssNum (Coords.x coords - padding)]>
           (<["top" := CssNum (Coords.y coords - padding)]>
           (<["position" := CssStr "absolute"]> ∅))))))))
  end.

(** [tooltipStyle] (index.tsx, 164-173), on top of the properties that are
    spread first. *)
Definition tooltipStyle (spreadFirst : CSSProperties) (tooltipWidth : option Q)
    (transition : option string) (tooltipPosition : option Coords.t)
    : CSSProperties :=
  <["visibility" :=
      CssStr (match tooltipPosition with
              | Some _ => "visible"
              | None => "hidden"
              end)]>
  (<["transition" := cssStr transition]>
  (<["left" := cssNum (option_map Coords.x tooltipPosition)]>
  (<["top" := cssNum (option_map Coords.y tooltipPosition)]>
  (<["width" := cssNum tooltipWidth]>
  (<["position" := CssStr "absolute"]> spreadFirst))))).

(** The properties [tooltipStyle] writes after the spread. *)
Definition tooltipStyleKeys : list string :=
  ["position"; "width"; "top"; "left"; "transition"; "visibility"].

(** What the component returns, as far as its data goes. *)
Record Button := mkButton {
  onClick : Action;
  disabled : bool;
  buttonStyle : CSSProperties;
  label : option string
}.

Inductive Part :=
| Custom (renderer : Renderer) (text : option string)
| Plain (style : CSSProperties) (text : string).

(** The text a part shows or hands to its renderer. *)
Definition partText (p : Part) : option string :=
  match p with
  | Custom _ text => text
  | Plain _ text => Some text
  end.

Inductive Footer :=
| CustomFooter (renderer : Renderer)
| Buttons (style : CSSProperties) (skipButton prevButton nextButton : Button).

Inductive Content :=
| CustomTooltip (renderer : Renderer)
| DefaultTooltip (title description : Part) (footer : Footer).

Record Rendered := mkRendered {
  mask : option CSSProperties;
  tooltip : CSSProperties;
  content : Content
}.

(** [Walktour]'s render (index.tsx, 55-226): nothing while hidden. *)
Definition Walktour `{Positioning} `{Styling} (props : WalktourProps)
    (vp : Viewport) (st : State) : Result (option Rendered) :=
  let currentStepIndex := currentStepIndex st in
  let currentStepContent := getStep currentStepIndex (steps props) in
  let merged := mergedOptions props currentStepContent in
  let titleRenderer := stepMember customTitleRenderer currentStepContent in
  let descriptionRenderer :=
    stepMember customDescriptionRenderer currentStepContent in
  let footerRenderer := stepMember customFooterRenderer currentStepContent in
  if negb (isVisibleState st) then ok None
  else
    let style base :=
      tooltipStyle base (read (tooltipWidth merged)) (read (transition merged))
                   (tooltipPosition st) in
    let theMask :=
      TourMask vp (targetData st) (read (disableMaskInteraction merged))
               (read (maskPadding merged)) None in
    match read (customTooltipRenderer merged) with
    | Some renderer => ok (Some (mkRendered theMask (style ∅) (CustomTooltip renderer)))
    | None =>
        let* styles :=
          match read (styles merged) with
          | Some s => ok s
          | None => throw (TypeError "container")
          end in
        let* theTitle :=
          let* text := ofStep currentStepContent "title" title in
          ok (match titleRenderer with
              | Some renderer => Custom renderer (Some text)
              | None => Plain (Styles.title styles) text
              end) in
        let* theDescription :=
          let* text := ofStep currentStepContent "description" description in
          ok (match descriptionRenderer with
              | Some renderer => Custom renderer (Some text)
              | None => Plain (Styles.description styles) text
              end) in
        let* theFooter :=
          match footerRenderer with
          | Some _ =>
              let* renderer :=
                ofStep currentStepContent "customFooterRenderer"
                       (fun s => read (customFooterRenderer s)) in
              match renderer with
              | Some r => ok (CustomFooter r)
              | None => throw (TypeError "customFooterRenderer")
              end
          | None =>
              ok (Buttons (Styles.footer styles)
                    (mkButton Skip false (Styles.tertiaryButton styles)
                              (read (skipLabel merged)))
                    (mkButton Prev (Qeq_bool currentStepIndex 0)
                              (if Qeq_bool currentStepIndex 0
                               then Styles.disabledButton styles
                               else Styles.secondaryButton styles)
                              (read (prevLabel merged)))
                    (mkButton Next
                              (Qeq_bool (currentStepIndex + 1)
                                        (lengthQ (steps props)))
                              (if Qeq_bool (currentStepIndex + 1)
                                           (lengthQ (steps props))
                               then Styles.disabledButton styles
                               else Styles.primaryButton styles)
                              (read (nextLabel merged))))
          end in
        ok (Some (mkRendered theMask (style (Styles.container styles))
                             (DefaultTooltip theTitle theDescription theFooter)))
    end.

(** ** An instance for the examples

    The four cardinal orientations, each centred on the target's side, tried
    south, north, east, west by default.  The candidate is computed in the
    target's (viewport) coordinates, its overflow is measured against the
    viewport, and the result is shifted by the scroll offset.  These formulas
    are the examples' own; the properties below hold for every instance. *)
Module Sample.

Inductive Cardinal := South | North | East | West.

Definition candidate (o : Cardinal) (target tip : ClientRect.t)
    (padding separation : option Q) : Coords.t :=
  let gap := default 0 padding + default 0 separation in
  let centreX :=
    ClientRect.left target + ClientRect.width target / 2
    - ClientRect.width tip / 2 in
  let centreY :=
    ClientRect.top target + ClientRect.height target / 2
    - ClientRect.height tip / 2 in
  match o with
  | South =>
      Coords.mk centreX
                (ClientRect.top target + ClientRect.height target + gap)
  | North =>
      Coords.mk centreX
                (ClientRect.top target - gap - ClientRect.height tip)
  | East =>
      Coords.mk (ClientRect.left target + ClientRect.width target + gap)
                centreY
  | West =>
      Coords.mk (ClientRect.left target - gap - ClientRect.width tip)
                centreY
  end.

Definition cardinal : Positioning := {|
  CardinalOrientation := Cardinal;
  defaultOrientation := South;
  otherOrientations := [North; East; West];
  placement o vp target tip padding separation :=
    let c := candidate o target tip padding separation in
    Coords.mk (Qred (Coords.x c + scrollX vp)) (Qred (Coords.y c + scrollY vp));
  overflow o vp target tip padding separation :=
    let c := candidate o target tip padding separation in
    mkOverflow (- Coords.y c)
               (Coords.x c + ClientRect.width tip - innerWidth vp)
               (Coords.y c + ClientRect.height tip - innerHeight vp)
               (- Coords.x c)
|}.

Definition plain : Styling :=
  {| defaultStyles := Styles.mk ∅ ∅ ∅ ∅ ∅ ∅ ∅ ∅ |}.

(** A rectangle from its corner and size. *)
Definition rect (top left width height : Q) : ClientRect.t :=
  ClientRect.mk top left width height (left + width) (top + height).

(** A 1024 x 768 window that has not been scrolled. *)
Definition window : Viewport := mkViewport 0 0 1024 768.

(** The target and the measured tooltip of the spec's scenarios. *)
Definition target : ClientRect.t := rect 100 100 50 50.
Definition lowTarget : ClientRect.t := rect 700 100 50 50.
Definition tip : ClientRect.t := rect 0 0 200 80.

Definition request (target : ClientRect.t) (tooltip : option ClientRect.t)
    (prefs : option (list Cardinal)) : @Request.t cardinal :=
  @Request.mk cardinal target tooltip (Some 5) (Some 10) prefs.

Definition options : @WalktourOptions cardinal := @noOptions cardinal.

Definition step (selector : string) : @Step cardinal :=
  @mkStep cardinal options selector "A title" "A description"
          Absent Absent Absent.

Definition tour : list (@Step cardinal) := [step "#first"; step "#second"].

Definition props (initial : Optional Q) : @WalktourProps cardinal :=
  @mkProps cardinal options tour true initial.

(** A page where [#first] and [#second] exist, the tooltip has been
    drawn, [#missing] matches nothing and [##] does not parse. *)
Definition page : Document := {|
  document_querySelector selector :=
    if String.eqb selector "#first" then ok (Some (mkElement target))
    else if String.eqb selector "#second" then ok (Some (mkElement lowTarget))
    else if String.eqb selector "##" then throw (SyntaxError selector)
    else ok None;
  document_getElementById id :=
    if String.eqb id "walktour-tooltip" then Some (mkElement tip) else None
|}.

(** The page at the first paint: the targets exist, the tooltip does not
    yet. *)
Definition firstPaint : Document := {|
  document_querySelector := document_querySelector page;
  document_getElementById id := None
|}.

(** The same page before the tooltip exists and without the targets. *)
Definition emptyPage : Document := {|
  document_querySelector selector := ok None;
  document_getElementById id := None
|}.

(** Props that bring a custom tooltip renderer, and a tour without steps. *)
Definition customProps (initial : Optional Q) : @WalktourProps cardinal :=
  @mkProps cardinal
    (@mkOptions cardinal Absent Absent Absent Absent Absent Absent
                (Present (Some "drawTooltip")) Absent Absent Absent Absent)
    tour true initial.

Definition noSteps : @WalktourProps cardinal :=
  @mkProps cardinal options [] true Absent.

(** Props whose [maskPadding] is there with the value [undefined]. *)
Definition undefinedPaddingProps : @WalktourProps cardinal :=
  @mkProps cardinal
    (@mkOptions cardinal Absent Absent (Present None) Absent Absent Absent
                Absent Absent Absent Absent Absent)
    tour true Absent.

(** A container style that tries to place the tooltip itself. *)
Definition pushy : CSSProperties :=
  <["top" := CssNum 7]> (<["color" := CssStr "red"]> ∅).

End Sample.

(** * Properties *)

Section Properties.

Context `{Positioning} `{Styling}.

(** ** Numbers *)

Lemma geb_true (a b : Q) : geb a b = true <-> b <= a.
Proof. unfold geb. apply Qle_bool_iff. Qed.

Lemma ltb_true (a b : Q) : ltb a b = true <-> a < b.
Proof.
  unfold ltb. rewrite negb_true_iff. split.
  - intros E. apply Qnot_le_lt. intros L. apply Qle_bool_iff in L. congruence.
  - intros L. destruct (Qle_bool b a) eqn:E; [|reflexivity].
    apply Qle_bool_iff in E. lra.
Qed.

(** [round] lands on an integer at most half a pixel away. *)
Lemma round_nearest (q : Q) :
  exists n : Z, round q = inject_Z n /\ q - (1 # 2) < round q /\ round q <= q + (1 # 2).
Proof.
  exists (Qfloor (q + (1 # 2))). unfold round. split; [reflexivity|].
  pose proof (Qfloor_le (q + (1 # 2))) as Hle.
  pose proof (Qlt_floor (q + (1 # 2))) as Hlt.
  rewrite inject_Z_plus in Hlt. change (inject_Z 1) with 1 in Hlt.
  split; lra.
Qed.

(** ** Placement *)

Lemma firstFit_skips {A} (test : A -> bool) (before : list A) (o : A)
    (after : list A) :
  (forall o', In o' before -> test o' = false) ->
  test o = true ->
  firstFit test (before ++ o :: after) = Some o.
Proof.
  intros Hbefore Ho. induction before as [|b before IH]; simpl.
  - now rewrite Ho.
  - rewrite (Hbefore b) by now left.
    apply IH. intros o' Hin. apply Hbefore. now right.
Qed.

Lemma firstFit_none {A} (test : A -> bool) (candidates : list A) :
  (forall o, In o candidates -> test o = false) ->
  firstFit test candidates = None.
Proof.
  induction candidates as [|c candidates IH]; intros Hall; simpl.
  - reflexivity.
  - rewrite (Hall c) by now left.
    apply IH. intros o Hin. apply Hall. now right.
Qed.

(** A list the caller gives, unless empty, is the list that is tried. *)
Lemma effectivePreferences_given (req : Request.t) o os :
  Request.orientationPreferences req = Some (o :: os) ->
  effectivePreferences req = o :: os.
Proof. unfold effectivePreferences. now intros ->. Qed.

Lemma effectivePreferences_default (req : Request.t) :
  Request.orientationPreferences req = None
  \/ Request.orientationPreferences req = Some [] ->
  effectivePreferences req = defaultOrientations.
Proof. unfold effectivePreferences. now intros [-> | ->]. Qed.

Lemma chooseOrientation_first_fit vp (req : Request.t) tip before o after :
  effectivePreferences req = before ++ o :: after ->
  (forall o', In o' before -> orientationFits vp req tip o' = false) ->
  orientationFits vp req tip o = true ->
  chooseOrientation vp req tip = o.
Proof.
  intros Hprefs Hbefore Ho. unfold chooseOrientation.
  rewrite Hprefs, (firstFit_skips _ _ _ _ Hbefore Ho). reflexivity.
Qed.

Lemma chooseOrientation_fallback vp (req : Request.t) tip o rest :
  effectivePreferences req = o :: rest ->
  (forall o', In o' (o :: rest) -> orientationFits vp req tip o' = false) ->
  chooseOrientation vp req tip = o.
Proof.
  intros Hprefs Hnone. unfold chooseOrientation.
  rewrite Hprefs, (firstFit_none _ _ Hnone). reflexivity.
Qed.

(** C1. With a measured tooltip, the position returned is the one computed
    for the first orientation, in the order of the list that is tried, whose
    four overflow amounts are all at most zero: every orientation before it
    in the list does not fit, and whatever comes after it plays no part. *)
Theorem getTooltipPosition_first_fit vp (req : Request.t) tip before o after :
  Request.tooltip req = Some tip ->
  effectivePreferences req = before ++ o :: after ->
  (forall o', In o' before -> orientationFits vp req tip o' = false) ->
  orientationFits vp req tip o = true ->
  chooseOrientation vp req tip = o
  /\ getTooltipPosition vp req = Some (placementFor vp req tip o).
Proof.
  intros Htip Hprefs Hbefore Ho.
  pose proof (chooseOrientation_first_fit _ _ _ _ _ _ Hprefs Hbefore Ho) as E.
  split; [exact E|]. unfold getTooltipPosition. now rewrite Htip, E.
Qed.

(** The list [[a; b; c]] where [a] and [b] both fit: the placement of [a]. *)
Lemma getTooltipPosition_first_of_three vp (req : Request.t) tip a b c :
  Request.tooltip req = Some tip ->
  Request.orientationPreferences req = Some [a; b; c] ->
  orientationFits vp req tip a = true ->
  orientationFits vp req tip b = true ->
  getTooltipPosition vp req = Some (placementFor vp req tip a).
Proof.
  intros Htip Hprefs Ha _. unfold getTooltipPosition. rewrite Htip.
  rewrite (chooseOrientation_first_fit vp req tip [] a [b; c]); auto.
  - now apply effectivePreferences_given.
  - intros o' [].
Qed.

(** C2. With a measured tooltip and a list in which no orientation fits, the
    position returned is the one computed for the head of the list, which
    itself does not fit; a position is returned, nothing is thrown. *)
Theorem getTooltipPosition_fallback vp (req : Request.t) tip o rest :
  Request.tooltip req = Some tip ->
  effectivePreferences req = o :: rest ->
  (forall o', In o' (o :: rest) -> orientationFits vp req tip o' = false) ->
  getTooltipPosition vp req = Some (placementFor vp req tip o)
  /\ orientationFits vp req tip o = false.
Proof.
  intros Htip Hprefs Hnone. split.
  - unfold getTooltipPosition. rewrite Htip.
    now rewrite (chooseOrientation_fallback _ _ _ _ _ Hprefs Hnone).
  - apply Hnone. now left.
Qed.

(** The request the placement effect builds has the tooltip's rectangle only
    if the tooltip element is in the document. *)
Lemma placementEffect_request props document vp st st' :
  isVisibleState st = true ->
  placementEffect props document vp st = ok st' ->
  exists target padding separation prefs,
    tooltipPosition st'
    = getTooltipPosition vp
        (Request.mk target
           (option_map getBoundingClientRect
              (document_getElementById document "walktour-tooltip"))
           padding separation prefs).
Proof.
  intros Hvisible. unfold placementEffect. rewrite Hvisible. cbn.
  destruct (ofStep _ _ _) as [e | selector]; cbn; [discriminate|].
  destruct (getTargetData document selector) as [e | found]; cbn; [discriminate|].
  intros [= <-]. cbn. eauto.
Qed.

(** C3. Without a measured tooltip the resolver returns no position, whatever
    the target, the padding, the separation, the preference list and the
    viewport are; so the placement effect, run while the tooltip element is
    not in the document, stores no position. *)
Theorem getTooltipPosition_unmeasured vp target padding separation prefs :
  getTooltipPosition vp (Request.mk target None padding separation prefs) = None
  /\ forall props document st st',
       document_getElementById document "walktour-tooltip" = None ->
       isVisibleState st = true ->
       placementEffect props document vp st = ok st' ->
       tooltipPosition st' = None.
Proof.
  split; [reflexivity|].
  intros props document st st' Hnone Hvisible Hrun.
  destruct (placementEffect_request _ _ _ _ _ Hvisible Hrun)
    as (found & p & sep & os & ->).
  rewrite Hnone. reflexivity.
Qed.

(** ** Geometry *)

(** C6. Without rounding, [getElementCoords] returns the rectangle's left
    plus the horizontal scroll offset and its top plus the vertical one; with
    rounding it returns the rounding of those two values, each an integer at
    most half a pixel from the unrounded one. *)
Theorem getElementCoords_translation vp rect :
  let exact := getElementCoords vp rect false in
  let rounded := getElementCoords vp rect true in
  Coords.x exact = ClientRect.left rect + scrollX vp
  /\ Coords.y exact = ClientRect.top rect + scrollY vp
  /\ Coords.x rounded = round (Coords.x exact)
  /\ Coords.y rounded = round (Coords.y exact)
  /\ (exists n : Z, Coords.x rounded = inject_Z n
                    /\ Coords.x exact - (1 # 2) < inject_Z n <= Coords.x exact + (1 # 2))
  /\ (exists m : Z, Coords.y rounded = inject_Z m
                    /\ Coords.y exact - (1 # 2) < inject_Z m <= Coords.y exact + (1 # 2)).
Proof.
  cbn. repeat split; try reflexivity.
  - destruct (round_nearest (ClientRect.left rect + scrollX vp)) as (n & E & L & U).
    exists n. rewrite <- E. auto.
  - destruct (round_nearest (ClientRect.top rect + scrollY vp)) as (n & E & L & U).
    exists n. rewrite <- E. auto.
Qed.

(** ** Target lookup *)

Lemma placementEffect_throws props document vp st step exn :
  isVisibleState st = true ->
  getStep (currentStepIndex st) (steps props) = Some step ->
  getTargetData document (querySelector step) = throw exn ->
  placementEffect props document vp st = throw exn.
Proof.
  intros Hvisible Hstep Hthrown. unfold placementEffect.
  rewrite Hvisible, Hstep. cbn. now rewrite Hthrown.
Qed.

(** C4. [getTargetData] returns the bounding rectangle of the element the
    selector finds.  When the selector finds none it throws: its own [Error]
    naming the selector when the query answers [null], the query's exception
    otherwise.  The effect that called it, for the current step of a visible
    tour, ends with that same exception. *)
Theorem getTargetData_found_or_thrown document selector :
  (forall element,
     document_querySelector document selector = ok (Some element) ->
     getTargetData document selector = ok (getBoundingClientRect element))
  /\ (document_querySelector document selector = ok None ->
      getTargetData document selector =
      throw (Error ("element specified by  " +:+ quote +:+ selector +:+ quote
                    +:+ " could not be found")))
  /\ ((forall element,
        document_querySelector document selector <> ok (Some element)) ->
      exists exn,
        getTargetData document selector = throw exn
        /\ forall props vp st step,
             isVisibleState st = true ->
             getStep (currentStepIndex st) (steps props) = Some step ->
             querySelector step = selector ->
             placementEffect props document vp st = throw exn).
Proof.
  unfold getTargetData. repeat split.
  - now intros element ->.
  - now intros ->.
  - intros Hnone.
    destruct (document_querySelector document selector) as [exn | [element|]] eqn:Q.
    + exists exn. split; [reflexivity|].
      intros props vp st step Hvisible Hstep <-.
      apply (placementEffect_throws _ _ _ _ _ _ Hvisible Hstep).
      unfold getTargetData. now rewrite Q.
    + now destruct (Hnone element).
    + eexists. split; [reflexivity|].
      intros props vp st step Hvisible Hstep <-.
      apply (placementEffect_throws _ _ _ _ _ _ Hvisible Hstep).
      unfold getTargetData. now rewrite Q.
Qed.

(** ** Mask and tooltip styles *)

(** C5. For a target and a padding, the mask is drawn at the target's page
    coordinates, as [getElementCoords] returns them for the mask (rounded to
    whole pixels, so within half a pixel of the scrolled corner), minus the
    padding in each axis; it is as wide and as high as the target plus twice
    the padding. *)
Theorem TourMask_expands_target vp target disableMaskInteraction padding
    roundedCutout :
  let coords := getElementCoords vp target true in
  exists style,
    TourMask vp (Some target) disableMaskInteraction (Some padding)
             roundedCutout = Some style
    /\ style !! "left" = Some (CssNum (Coords.x coords - padding))
    /\ style !! "top" = Some (CssNum (Coords.y coords - padding))
    /\ style !! "width" = Some (CssNum (ClientRect.width target + padding * 2))
    /\ style !! "height" = Some (CssNum (ClientRect.height target + padding * 2))
    /\ Qabs (Coords.x coords - (ClientRect.left target + scrollX vp)) <= 1 # 2
    /\ Qabs (Coords.y coords - (ClientRect.top target + scrollY vp)) <= 1 # 2.
Proof.
  intros coords. eexists. split; [reflexivity|].
  repeat split; try (cbn [default]; by simplify_map_eq).
  - destruct (round_nearest (ClientRect.left target + scrollX vp)) as (n & _ & L & U).
    apply Qabs_Qle_condition. subst coords. cbn. split; lra.
  - destruct (round_nearest (ClientRect.top target + scrollY vp)) as (n & _ & L & U).
    apply Qabs_Qle_condition. subst coords. cbn. split; lra.
Qed.

(** Without a target there is no mask, and a padding left undefined is 0. *)
Lemma TourMask_no_target vp disableMaskInteraction padding roundedCutout :
  TourMask vp None disableMaskInteraction padding roundedCutout = None.
Proof. reflexivity. Qed.

Lemma TourMask_default_padding vp target disableMaskInteraction roundedCutout :
  TourMask vp target disableMaskInteraction None roundedCutout
  = TourMask vp target disableMaskInteraction (Some 0) roundedCutout.
Proof. reflexivity. Qed.

Lemma tooltipStyle_visibility base w tr pos :
  tooltipStyle base w tr pos !! "visibility"
  = Some (CssStr (match pos with Some _ => "visible" | None => "hidden" end)).
Proof. unfold tooltipStyle. by simplify_map_eq. Qed.

Lemma tooltipStyle_top base w tr pos :
  tooltipStyle base w tr pos !! "top" = Some (cssNum (option_map Coords.y pos)).
Proof. unfold tooltipStyle. by simplify_map_eq. Qed.

Lemma tooltipStyle_left base w tr pos :
  tooltipStyle base w tr pos !! "left" = Some (cssNum (option_map Coords.x pos)).
Proof. unfold tooltipStyle. by simplify_map_eq. Qed.

(** What is rendered for a visible tour: the tooltip's style is
    [tooltipStyle] at the stored position. *)
Lemma Walktour_tooltip props vp st r :
  Walktour props vp st = ok (Some r) ->
  exists base w tr, tooltip r = tooltipStyle base w tr (tooltipPosition st).
Proof.
  unfold Walktour.
  destruct (negb (isVisibleState st)); [discriminate|].
  destruct (read (customTooltipRenderer _)).
  - intros [= <-]. cbn. eauto.
  - destruct (read (styles _)); cbn; [|discriminate].
    destruct (getStep _ _) as [s|]; cbn; [|discriminate].
    destruct (read (customFooterRenderer s)); cbn; intros [= <-]; cbn; eauto.
Qed.

(** Whether the render throws does not depend on the stored position. *)
Lemma Walktour_throws_whatever_position props vp st pos exn :
  Walktour props vp (setTooltipPosition pos st) = throw exn
  <-> Walktour props vp st = throw exn.
Proof.
  unfold Walktour, setTooltipPosition.
  cbn [isVisibleState currentStepIndex tooltipPosition targetData].
  destruct (negb (isVisibleState st)); [tauto|].
  destruct (read (customTooltipRenderer _)); [split; discriminate|].
  destruct (read (styles _)); cbn; [|tauto].
  destruct (getStep _ _) as [s|]; cbn; [|tauto].
  destruct (read (customFooterRenderer s)); cbn; split; discriminate.
Qed.

(** C7. In what a visible tour renders, a tooltip without a stored position
    is hidden and gets no [top] and no [left], and rendering it throws
    nothing that rendering it with a position would not throw; a tooltip with
    a stored position is visible, its [top] that position's [y] and its
    [left] that position's [x]. *)
Theorem tooltip_hidden_until_positioned props vp st r :
  Walktour props vp st = ok (Some r) ->
  match tooltipPosition st with
  | None =>
      tooltip r !! "visibility" = Some (CssStr "hidden")
      /\ applied (tooltip r) "top" = None
      /\ applied (tooltip r) "left" = None
  | Some position =>
      tooltip r !! "visibility" = Some (CssStr "visible")
      /\ applied (tooltip r) "top" = Some (CssNum (Coords.y position))
      /\ applied (tooltip r) "left" = Some (CssNum (Coords.x position))
  end
  /\ forall exn, Walktour props vp (setTooltipPosition None st) <> throw exn.
Proof.
  intros Hr. split.
  - destruct (Walktour_tooltip _ _ _ _ Hr) as (base & w & tr & ->).
    unfold applied.
    rewrite tooltipStyle_visibility, tooltipStyle_top, tooltipStyle_left.
    destruct (tooltipPosition st); cbn; auto.
  - intros exn Hthrown. apply Walktour_throws_whatever_position in Hthrown.
    rewrite Hr in Hthrown. discriminate.
Qed.

(** ** Defaults *)

Lemma read_spread {A} (under over : Optional A) :
  read (spread under over)
  = match over with Absent => read under | Present v => v end.
Proof. now destruct over. Qed.

(** What the placement effect hands to [getTooltipPosition]: the target it
    found, the tooltip's rectangle if the tooltip is in the document, and the
    merged padding, separation and preferences. *)
Lemma placementEffect_hands_over props document vp st st' :
  isVisibleState st = true ->
  placementEffect props document vp st = ok st' ->
  exists found,
    targetData st' = Some found
    /\ tooltipPosition st'
       = getTooltipPosition vp
           (Request.mk found
              (option_map getBoundingClientRect
                 (document_getElementById document "walktour-tooltip"))
              (read (maskPadding
                       (mergedOptions props
                          (getStep (currentStepIndex st) (steps props)))))
              (read (tooltipSeparation
                       (mergedOptions props
                          (getStep (currentStepIndex st) (steps props)))))
              (read (orientationPreferences
                       (mergedOptions props
                          (getStep (currentStepIndex st) (steps props)))))).
Proof.
  intros Hvisible. unfold placementEffect. rewrite Hvisible. cbn [negb].
  destruct (ofStep _ _ _) as [e | selector]; cbn [bind]; [discriminate|].
  destruct (getTargetData document selector) as [e | found]; cbn [bind];
    [discriminate|].
  intros [= <-]. exists found. split; reflexivity.
Qed.

Lemma Walktour_mask props vp st r :
  Walktour props vp st = ok (Some r) ->
  let merged :=
    mergedOptions props (getStep (currentStepIndex st) (steps props)) in
  mask r = TourMask vp (targetData st) (read (disableMaskInteraction merged))
                    (read (maskPadding merged)) None.
Proof.
  unfold Walktour.
  destruct (negb (isVisibleState st)); [discriminate|].
  destruct (read (customTooltipRenderer _)).
  - intros [= <-]. reflexivity.
  - destruct (read (styles _)); cbn; [|discriminate].
    destruct (getStep _ _) as [s|]; cbn; [|discriminate].
    destruct (read (customFooterRenderer s)); cbn; intros [= <-]; reflexivity.
Qed.

(** C8. The padding and the separation the engine is given are the merged
    ones: the placement effect hands them to [getTooltipPosition] and the
    render hands the padding to [TourMask].  When neither the props nor the
    current step have the property they are 5 and 10.  The defaults lie under
    the props, which lie under the step: a property the step has wins, and a
    property the props have wins where the step has none. *)
Theorem defaults_under_overrides props document vp st :
  let currentStepContent := getStep (currentStepIndex st) (steps props) in
  let step := match currentStepContent with
              | Some s => stepOptions s
              | None => noOptions
              end in
  let merged := mergedOptions props currentStepContent in
  let tooltipData :=
    option_map getBoundingClientRect
               (document_getElementById document "walktour-tooltip") in
  (forall st',
     isVisibleState st = true ->
     placementEffect props document vp st = ok st' ->
     exists found,
       targetData st' = Some found
       /\ tooltipPosition st'
          = getTooltipPosition vp
              (Request.mk found tooltipData (read (maskPadding merged))
                          (read (tooltipSeparation merged))
                          (read (orientationPreferences merged))))
  /\ (forall r,
        Walktour props vp st = ok (Some r) ->
        mask r = TourMask vp (targetData st)
                          (read (disableMaskInteraction merged))
                          (read (maskPadding merged)) None)
  /\ (maskPadding (propsOptions props) = Absent -> maskPadding step = Absent ->
      tooltipSeparation (propsOptions props) = Absent ->
      tooltipSeparation step = Absent ->
      (forall st',
         isVisibleState st = true ->
         placementEffect props document vp st = ok st' ->
         exists found,
           tooltipPosition st'
           = getTooltipPosition vp
               (Request.mk found tooltipData (Some 5) (Some 10)
                           (read (orientationPreferences merged))))
      /\ (forall r,
            Walktour props vp st = ok (Some r) ->
            mask r = TourMask vp (targetData st)
                              (read (disableMaskInteraction merged))
                              (Some 5) None))
  /\ (maskPadding (propsOptions props) = Absent -> maskPadding step = Absent ->
      read (maskPadding merged) = Some 5)
  /\ (tooltipSeparation (propsOptions props) = Absent ->
      tooltipSeparation step = Absent ->
      read (tooltipSeparation merged) = Some 10)
  /\ (forall v, maskPadding (propsOptions props) = Present v ->
                maskPadding step = Absent -> read (maskPadding merged) = v)
  /\ (forall v, tooltipSeparation (propsOptions props) = Present v ->
                tooltipSeparation step = Absent ->
                read (tooltipSeparation merged) = v)
  /\ (forall v, maskPadding step = Present v -> read (maskPadding merged) = v)
  /\ (forall v, tooltipSeparation step = Present v ->
                read (tooltipSeparation merged) = v).
Proof.
  intros currentStepContent step merged tooltipData.
  assert (Hpadding : maskPadding (propsOptions props) = Absent ->
                     maskPadding step = Absent ->
                     read (maskPadding merged) = Some 5).
  { subst merged. unfold mergedOptions. fold step. cbn. now intros -> ->. }
  assert (Hseparation : tooltipSeparation (propsOptions props) = Absent ->
                        tooltipSeparation step = Absent ->
                        read (tooltipSeparation merged) = Some 10).
  { subst merged. unfold mergedOptions. fold step. cbn. now intros -> ->. }
  split; [|split; [|split; [|split; [|split; [|split; [|split; [|split]]]]]]].
  - intros st' Hvisible Hrun.
    exact (placementEffect_hands_over _ _ _ _ _ Hvisible Hrun).
  - intros r Hr. exact (Walktour_mask _ _ _ _ Hr).
  - intros Hp1 Hp2 Hs1 Hs2. split.
    + intros st' Hvisible Hrun.
      destruct (placementEffect_hands_over _ _ _ _ _ Hvisible Hrun)
        as (found & _ & Hposition).
      exists found. rewrite Hposition. fold currentStepContent. fold merged.
      now rewrite (Hpadding Hp1 Hp2), (Hseparation Hs1 Hs2).
    + intros r Hr. rewrite (Walktour_mask _ _ _ _ Hr).
      fold currentStepContent. fold merged. now rewrite (Hpadding Hp1 Hp2).
  - exact Hpadding.
  - exact Hseparation.
  - subst merged. unfold mergedOptions. fold step. cbn. now intros v -> ->.
  - subst merged. unfold mergedOptions. fold step. cbn. now intros v -> ->.
  - subst merged. unfold mergedOptions. fold step. cbn. now intros v ->.
  - subst merged. unfold mergedOptions. fold step. cbn. now intros v ->.
Qed.

(** ** Navigation *)

Lemma goToStep_rejects (steps : list Step) stepIndex st :
  stepIndex < 0 \/ lengthQ steps <= stepIndex ->
  goToStep steps stepIndex st = st.
Proof.
  intros Hout. unfold goToStep.
  destruct (geb stepIndex (lengthQ steps)) eqn:G; [reflexivity|].
  destruct (ltb stepIndex 0) eqn:L; [reflexivity|].
  exfalso. destruct Hout as [Hneg | Hbig].
  - apply ltb_true in Hneg. congruence.
  - apply geb_true in Hbig. congruence.
Qed.

Lemma goToStep_accepts (steps : list Step) stepIndex st :
  0 <= stepIndex < lengthQ steps ->
  goToStep steps stepIndex st = setCurrentStepIndex stepIndex st.
Proof.
  intros [Hlo Hhi]. unfold goToStep.
  destruct (geb stepIndex (lengthQ steps)) eqn:G.
  - apply geb_true in G. lra.
  - destruct (ltb stepIndex 0) eqn:L; [|reflexivity].
    apply ltb_true in L. lra.
Qed.

Lemma goToStep_inRange (steps : list Step) stepIndex st :
  inRange steps st -> inRange steps (goToStep steps stepIndex st).
Proof.
  intros Hin.
  destruct (Qlt_le_dec stepIndex 0) as [Hneg | Hlo].
  { rewrite goToStep_rejects; auto. }
  destruct (Qlt_le_dec stepIndex (lengthQ steps)) as [Hhi | Hbig].
  - rewrite goToStep_accepts by auto. unfold inRange. cbn. auto.
  - rewrite goToStep_rejects; auto.
Qed.

Lemma perform_inRange (steps : list Step) a st :
  inRange steps st -> inRange steps (perform steps a st).
Proof.
  intros Hin. destruct a; cbn; unfold next, prev, skip.
  - now apply goToStep_inRange.
  - now apply goToStep_inRange.
  - apply (goToStep_inRange steps 0) in Hin. exact Hin.
  - now apply goToStep_inRange.
Qed.

(** *** Comparisons and sums of binary64 numbers *)

Lemma shr_1_nonneg mrs : (0 <= shr_m mrs)%Z -> (0 <= shr_m (shr_1 mrs))%Z.
Proof.
  destruct mrs as [m r s]. destruct m as [|[p|p|]|[p|p|]]; cbn; lia.
Qed.

Lemma iter_shr_1_nonneg p mrs :
  (0 <= shr_m mrs)%Z -> (0 <= shr_m (SpecFloat.iter_pos shr_1 p mrs))%Z.
Proof.
  revert mrs. induction p as [p IH|p IH|]; intros mrs Hm; cbn.
  - apply IH, IH. now apply shr_1_nonneg.
  - now apply IH, IH.
  - now apply shr_1_nonneg.
Qed.

Lemma shr_fexp_nonneg pr em m e l :
  (0 <= m)%Z -> (0 <= shr_m (fst (shr_fexp pr em m e l)))%Z.
Proof.
  intros Hm. unfold shr_fexp, shr.
  assert (Hrecord : (0 <= shr_m (shr_record_of_loc m l))%Z)
    by (destruct l as [|[]]; exact Hm).
  destruct (_ - e)%Z; cbn [fst]; auto. now apply iter_shr_1_nonneg.
Qed.

Lemma round_nearest_even_nonneg m l :
  (0 <= m)%Z -> (0 <= round_nearest_even m l)%Z.
Proof.
  intros Hm. destruct l as [|[]]; cbn; try lia. destruct (Z.even m); lia.
Qed.

(** Rounding a mantissa that is not negative never gives [NaN]. *)
Lemma binary_round_aux_number pr em sx mx ex lx :
  (0 <= mx)%Z -> binary_round_aux pr em sx mx ex lx <> S754_nan.
Proof.
  intros Hm. unfold binary_round_aux.
  pose proof (shr_fexp_nonneg pr em mx ex lx Hm) as H1.
  destruct (shr_fexp pr em mx ex lx) as [mrs' e']. cbn [fst] in H1.
  pose proof (shr_fexp_nonneg pr em _ e' loc_Exact
                (round_nearest_even_nonneg _ (loc_of_shr_record mrs') H1)) as H2.
  destruct (shr_fexp pr em _ e' loc_Exact) as [mrs'' e'']. cbn [fst] in H2.
  destruct (shr_m mrs''); [discriminate | | lia].
  destruct (_ <=? _)%Z; discriminate.
Qed.

Lemma binary_normalize_number pr em m e szero :
  binary_normalize pr em m e szero <> S754_nan.
Proof.
  unfold binary_normalize, binary_round. destruct m; [discriminate | |];
    destruct (shl_align _ _ _); apply binary_round_aux_number; lia.
Qed.

Lemma SFcompare_antisym a b :
  SFcompare b a = option_map CompOpp (SFcompare a b).
Proof.
  destruct a as [s1|s1| |s1 m1 e1], b as [s2|s2| |s2 m2 e2]; cbn;
    try reflexivity; try (destruct s1; reflexivity);
    try (destruct s2; reflexivity); try (destruct s1, s2; reflexivity).
  assert (Hm : Pos.compare_cont Eq m2 m1 = CompOpp (Pos.compare_cont Eq m1 m2))
    by (symmetry; apply (Pos.compare_cont_antisym m1 m2 Eq)).
  destruct s1, s2; try reflexivity; f_equal;
    rewrite (Z.compare_antisym e1 e2), Hm;
    destruct (e1 ?= e2)%Z; cbn; try reflexivity;
    destruct (Pos.compare_cont Eq m1 m2); reflexivity.
Qed.

Lemma SFcompare_total a b :
  a <> S754_nan -> b <> S754_nan -> exists c, SFcompare a b = Some c.
Proof.
  destruct a, b; cbn; intros Ha Hb; try congruence; eauto.
Qed.

Lemma is_nan_false x : PrimFloat.is_nan x = false -> number x.
Proof.
  unfold PrimFloat.is_nan, number. rewrite FloatAxioms.eqb_spec. unfold SFeqb.
  intros E Hn. rewrite Hn in E. discriminate.
Qed.

(** Between two numbers, [a >= b] false means [a < b], and [a < b] false
    means [a >= b]; with [NaN] both are false. *)
Lemma leb_false_ltb a b :
  number a -> number b -> PrimFloat.leb a b = false -> PrimFloat.ltb b a = true.
Proof.
  unfold number. rewrite FloatAxioms.leb_spec, FloatAxioms.ltb_spec.
  unfold SFleb, SFltb. intros Ha Hb.
  rewrite (SFcompare_antisym (Prim2SF a) (Prim2SF b)).
  destruct (SFcompare_total _ _ Ha Hb) as [c ->]. now destruct c.
Qed.

Lemma ltb_false_leb a b :
  number a -> number b -> PrimFloat.ltb a b = false -> PrimFloat.leb b a = true.
Proof.
  unfold number. rewrite FloatAxioms.leb_spec, FloatAxioms.ltb_spec.
  unfold SFleb, SFltb. intros Ha Hb.
  rewrite (SFcompare_antisym (Prim2SF a) (Prim2SF b)).
  destruct (SFcompare_total _ _ Ha Hb) as [c ->]. now destruct c.
Qed.

Lemma zero_number : number 0%float.
Proof. unfold number. vm_compute. discriminate. Qed.

Lemma one_spec : Prim2SF 1 = S754_finite false 4503599627370496 (-52).
Proof. reflexivity. Qed.

Lemma length_number (steps : list Step) : number (Double.length steps).
Proof.
  unfold number, Double.length. rewrite of_uint63_spec.
  apply binary_normalize_number.
Qed.

(** An index in range is zero or finite. *)
Lemma inRange_bounded (steps : list Step) st :
  Double.inRange steps st ->
  exists s,
    Prim2SF (Double.currentStepIndex st) = S754_zero s
    \/ exists m e, Prim2SF (Double.currentStepIndex st) = S754_finite s m e.
Proof.
  unfold Double.inRange. rewrite FloatAxioms.leb_spec, FloatAxioms.ltb_spec.
  unfold SFleb, SFltb. change (Prim2SF 0) with (S754_zero false).
  destruct (Prim2SF (Double.currentStepIndex st)) as [s|s| |s m e];
    intros [Hlo Hhi].
  - eauto.
  - destruct s; [discriminate Hlo|].
    destruct (Prim2SF (Double.length steps)) as [|[]| |]; discriminate Hhi.
  - discriminate Hlo.
  - eauto.
Qed.

(** One more or one less than such an index is a number. *)
Lemma add_one_number x s :
  (Prim2SF x = S754_zero s \/ exists m e, Prim2SF x = S754_finite s m e) ->
  number (x + 1)%float.
Proof.
  unfold number. rewrite FloatAxioms.add_spec, one_spec. unfold SF64add, SFadd.
  intros [-> | (m & e & ->)]; [discriminate|].
  apply binary_normalize_number.
Qed.

Lemma sub_one_number x s :
  (Prim2SF x = S754_zero s \/ exists m e, Prim2SF x = S754_finite s m e) ->
  number (x - 1)%float.
Proof.
  unfold number. rewrite FloatAxioms.sub_spec, one_spec. unfold SF64sub, SFsub.
  intros [-> | (m & e & ->)]; [discriminate|].
  apply binary_normalize_number.
Qed.

Lemma Double_goToStep_inRange (steps : list Step) stepIndex st :
  number stepIndex ->
  Double.inRange steps st ->
  Double.inRange steps (Double.goToStep steps stepIndex st).
Proof.
  intros Hnum Hin. unfold Double.goToStep.
  destruct (PrimFloat.leb (Double.length steps) stepIndex) eqn:Hhi; [exact Hin|].
  destruct (PrimFloat.ltb stepIndex 0) eqn:Hlo; [exact Hin|]. cbn.
  split; cbn.
  - exact (ltb_false_leb _ _ Hnum zero_number Hlo).
  - exact (leb_false_ltb _ _ (length_number steps) Hnum Hhi).
Qed.

Lemma Double_perform_inRange (steps : list Step) a st :
  Double.notNaN a ->
  Double.inRange steps st ->
  Double.inRange steps (Double.perform steps a st).
Proof.
  intros Ha Hin. destruct (inRange_bounded steps st Hin) as [s Hs].
  destruct a; cbn; unfold Double.next, Double.prev, Double.skip.
  - apply Double_goToStep_inRange; [|exact Hin]. exact (add_one_number _ s Hs).
  - apply Double_goToStep_inRange; [|exact Hin]. exact (sub_one_number _ s Hs).
  - apply (Double_goToStep_inRange steps 0%float st zero_number) in Hin.
    exact Hin.
  - apply Double_goToStep_inRange; [|exact Hin]. now apply is_nan_false.
Qed.

(** C9. On the numbers JavaScript has: [goToStep] leaves the state, and so
    the current step index, as it is when its argument is negative or at
    least the number of steps; and from an index in [0, steps.length), the
    index is still there after any sequence of [next], [prev], [goToStep]
    and [skip] calls in which no argument of [goToStep] is [NaN]. *)
Theorem stepIndex_stays_in_range (steps : list Step) :
  (forall stepIndex st,
     PrimFloat.ltb stepIndex 0 = true
     \/ PrimFloat.leb (Double.length steps) stepIndex = true ->
     Double.goToStep steps stepIndex st = st)
  /\ (forall acts st,
        Forall Double.notNaN acts ->
        Double.inRange steps st ->
        Double.inRange steps (Double.performAll steps acts st)).
Proof.
  split.
  - intros stepIndex st [Hlo | Hhi]; unfold Double.goToStep.
    + rewrite Hlo. now rewrite orb_true_r.
    + now rewrite Hhi.
  - unfold Double.performAll. intros acts st Hacts. revert st.
    induction Hacts as [|a acts Ha _ IH]; intros st Hin; cbn; [exact Hin|].
    apply IH. now apply Double_perform_inRange.
Qed.

(** The keys move the index the same way. *)
Lemma keyPressHandler_inRange (steps : list Step) key st :
  inRange steps st -> inRange steps (keyPressHandler steps key st).
Proof.
  intros Hin. unfold keyPressHandler.
  destruct (String.eqb key "Escape"); [exact (perform_inRange steps Skip st Hin)|].
  destruct (String.eqb key "ArrowRight"); [exact (perform_inRange steps Next st Hin)|].
  destruct (String.eqb key "ArrowLeft"); [exact (perform_inRange steps Prev st Hin)|].
  exact Hin.
Qed.

(** ** Indexing *)

Lemma Qred_whole z : Qred (inject_Z z) = inject_Z z.
Proof.
  unfold Qred, inject_Z.
  pose proof (Z.ggcd_gcd z 1) as G.
  pose proof (Z.ggcd_correct_divisors z 1) as D.
  destruct (Z.ggcd z 1) as [g [zz one]]. cbn in G, D |- *.
  rewrite Z.gcd_1_r in G. subst g. rewrite !Z.mul_1_l in D.
  destruct D as [<- <-]. reflexivity.
Qed.

Lemma arrayIndex_whole q (i : nat) :
  q == inject_Z (Z.of_nat i) -> arrayIndex q = Some i.
Proof.
  intros E. unfold arrayIndex. rewrite (Qred_complete _ _ E).
  rewrite Qred_whole. cbn.
  replace (Z.leb 0 (Z.of_nat i)) with true by (symmetry; apply Z.leb_le; lia).
  now rewrite Nat2Z.id.
Qed.

(** On one of the steps, [getStep] returns that step. *)
Lemma getStep_onStep (steps : list Step) st :
  onStep steps st -> exists s, getStep (currentStepIndex st) steps = Some s.
Proof.
  intros (i & E & Hi). unfold getStep. rewrite (arrayIndex_whole _ _ E).
  apply lookup_lt_is_Some_2 in Hi. destruct Hi as [s Hs]. eauto.
Qed.

Lemma goToStep_onStep (steps : list Step) stepIndex st :
  (exists z : Z, stepIndex == inject_Z z) ->
  onStep steps st -> onStep steps (goToStep steps stepIndex st).
Proof.
  intros [z Ez] Hon.
  destruct (Qlt_le_dec stepIndex 0) as [Hneg | Hlo].
  { rewrite goToStep_rejects; auto. }
  destruct (Qlt_le_dec stepIndex (lengthQ steps)) as [Hhi | Hbig].
  - rewrite goToStep_accepts by auto.
    unfold lengthQ in Hhi. rewrite Ez in Hlo, Hhi.
    change 0 with (inject_Z 0) in Hlo.
    rewrite <- Zle_Qle in Hlo. rewrite <- Zlt_Qlt in Hhi.
    exists (Z.to_nat z). cbn. rewrite Z2Nat.id by exact Hlo. split; [exact Ez | lia].
  - rewrite goToStep_rejects; auto.
Qed.

(** Whole-numbered calls keep the index on one of the steps. *)
Lemma performAll_onStep (steps : list Step) acts st :
  Forall wholeStep acts ->
  onStep steps st -> onStep steps (performAll steps acts st).
Proof.
  unfold performAll. intros Hwhole. revert st.
  induction Hwhole as [|a acts Ha _ IH]; intros st Hon; cbn; [exact Hon|].
  apply IH. pose proof Hon as (i & E & _).
  destruct a; cbn; unfold next, prev, skip.
  - apply goToStep_onStep; [|exact Hon].
    exists (Z.of_nat i + 1)%Z. rewrite E, inject_Z_plus. reflexivity.
  - apply goToStep_onStep; [|exact Hon].
    exists (Z.of_nat i - 1)%Z. rewrite E. unfold Z.sub.
    rewrite inject_Z_plus, inject_Z_opp. reflexivity.
  - apply (goToStep_onStep steps 0) in Hon; [exact Hon|].
    exists 0%Z. reflexivity.
  - apply goToStep_onStep; [exact Ha | exact Hon].
Qed.

(** ** The initial step index *)

Lemma arrayIndex_value q i :
  arrayIndex q = Some i -> q == inject_Z (Z.of_nat i).
Proof.
  unfold arrayIndex.
  destruct (Pos.eqb (Qden (Qred q)) 1 && Z.leb 0 (Qnum (Qred q)))%bool eqn:E;
    [|discriminate].
  apply andb_true_iff in E. destruct E as [Hden Hnum].
  apply Pos.eqb_eq in Hden. apply Z.leb_le in Hnum.
  intros [= <-]. rewrite Z2Nat.id by exact Hnum.
  rewrite <- (Qred_correct q) at 1.
  destruct (Qred q) as [num den]. cbn in *. subst den. reflexivity.
Qed.

Lemma getStep_out_of_range (steps : list Step) stepIndex :
  stepIndex < 0 \/ lengthQ steps <= stepIndex ->
  getStep stepIndex steps = None.
Proof.
  intros Hout. unfold getStep.
  destruct (arrayIndex stepIndex) as [i|] eqn:E; [|reflexivity].
  apply arrayIndex_value in E. apply lookup_ge_None.
  destruct Hout as [Hneg | Hbig].
  - exfalso. rewrite E in Hneg.
    change 0 with (inject_Z 0) in Hneg. rewrite <- Zlt_Qlt in Hneg. lia.
  - unfold lengthQ in Hbig. rewrite E in Hbig. rewrite <- Zle_Qle in Hbig. lia.
Qed.

Lemma orZero_value n : orZero (Some n) == n.
Proof.
  cbn. destruct (Qeq_bool n 0) eqn:E; [|reflexivity].
  apply Qeq_bool_iff in E. now rewrite E.
Qed.

(** C10. An [initialStepIndex] that is at least the number of steps becomes
    the current step index as it is: the index is out of range, [getStep]
    returns [undefined] for it and the effect run after the first render
    does not move it; for a visible tour the placement effect then throws on
    reading the step's [querySelector], and the render (unless the props
    bring a custom tooltip renderer) throws on reading a property too. *)
Theorem initialStepIndex_unchecked props n :
  read (initialStepIndex props) = Some n ->
  lengthQ (steps props) <= n ->
  let st := initialState props in
  lengthQ (steps props) <= currentStepIndex st
  /\ getStep (currentStepIndex st) (steps props) = None
  /\ mountEffect props st = st
  /\ (isVisible props = true ->
      forall document vp,
        placementEffect props document vp st = throw (TypeError "querySelector"))
  /\ (isVisible props = true ->
      read (customTooltipRenderer (propsOptions props)) = None ->
      forall vp, exists property,
        Walktour props vp st = throw (TypeError property)).
Proof.
  intros Hn Hbig st.
  assert (Hidx : lengthQ (steps props) <= currentStepIndex st).
  { subst st. unfold initialState. cbn. rewrite Hn, orZero_value. exact Hbig. }
  assert (Hstep : getStep (currentStepIndex st) (steps props) = None).
  { apply getStep_out_of_range. now right. }
  repeat split.
  - exact Hidx.
  - exact Hstep.
  - unfold mountEffect. apply goToStep_rejects. now right.
  - intros Hvisible document vp. unfold placementEffect.
    rewrite Hstep. subst st. cbn. now rewrite Hvisible.
  - intros Hvisible Hcustom vp. unfold Walktour. rewrite Hstep.
    replace (isVisibleState st) with true by (subst st; cbn; congruence).
    cbn [negb]. unfold mergedOptions.
    replace (read (customTooltipRenderer _)) with (@None Renderer)
      by (cbn; rewrite !read_spread; cbn;
          destruct (customTooltipRenderer (propsOptions props)); cbn in *; congruence).
    destruct (read (styles _)); cbn; eauto.
Qed.

(** ** More on navigation *)

Lemma setCurrentStepIndex_same st :
  setCurrentStepIndex (currentStepIndex st) st = st.
Proof. now destruct st. Qed.

Lemma lengthQ_positive {A} (a : A) (l : list A) : 0 < lengthQ (a :: l).
Proof.
  unfold lengthQ. change 0 with (inject_Z 0). rewrite <- Zlt_Qlt. cbn. lia.
Qed.

Lemma goToStep_frame (steps : list Step) stepIndex st :
  isVisibleState (goToStep steps stepIndex st) = isVisibleState st
  /\ tooltipPosition (goToStep steps stepIndex st) = tooltipPosition st
  /\ targetData (goToStep steps stepIndex st) = targetData st.
Proof.
  unfold goToStep. destruct (geb _ _ || ltb _ _)%bool; cbn; auto.
Qed.

(** X1. The effect run after the first render, [goToStep(currentStepIndex)],
    leaves every state as it is: an index in range is set to itself and one
    out of range is refused, so it never repairs an index. *)
Theorem mountEffect_changes_nothing props st : mountEffect props st = st.
Proof.
  unfold mountEffect, goToStep.
  destruct (geb _ _ || ltb _ _)%bool; [reflexivity|].
  apply setCurrentStepIndex_same.
Qed.

Lemma Walktour_hidden props vp st :
  isVisibleState st = false -> Walktour props vp st = ok None.
Proof. intros Hhidden. unfold Walktour. now rewrite Hhidden. Qed.

(** X2. A hidden tour is inert: the render returns [null] and the placement
    effect returns at once with the state as it was, without looking at the
    current step or the document, so neither can throw, whatever the index. *)
Theorem hidden_tour_is_inert props document vp st :
  isVisibleState st = false ->
  Walktour props vp st = ok None
  /\ placementEffect props document vp st = ok st.
Proof.
  intros Hhidden. unfold Walktour, placementEffect. now rewrite Hhidden.
Qed.

(** X3. [skip] hides the tour, whatever the state: the next render returns
    [null].  It goes back to step 0 when there is a step, leaves the index
    when there is none, and keeps the stored position and target. *)
Theorem skip_hides_and_rewinds props vp st :
  let st' := skip (steps props) st in
  isVisibleState st' = false
  /\ Walktour props vp st' = ok None
  /\ (steps props <> [] -> currentStepIndex st' = 0)
  /\ (steps props = [] -> currentStepIndex st' = currentStepIndex st)
  /\ tooltipPosition st' = tooltipPosition st
  /\ targetData st' = targetData st.
Proof.
  intros st'. subst st'. unfold skip.
  destruct (goToStep_frame (steps props) 0 st) as (_ & Hpos & Htarget).
  split; [reflexivity|]. split; [now apply Walktour_hidden|].
  split; [|split; [|split]]; cbn.
  - destruct (steps props) as [|s l] eqn:E; [congruence|]. intros _.
    rewrite goToStep_accepts; [reflexivity|].
    split; [apply Qle_refl | apply lengthQ_positive].
  - intros ->. rewrite goToStep_rejects; [reflexivity|]. right. apply Qle_refl.
  - exact Hpos.
  - exact Htarget.
Qed.

Lemma perform_frame (steps : list Step) a st :
  isVisibleState (perform steps a st) = (isVisibleState st && negb (isSkip a))%bool
  /\ tooltipPosition (perform steps a st) = tooltipPosition st
  /\ targetData (perform steps a st) = targetData st.
Proof.
  destruct a; cbn; unfold next, prev, skip; cbn;
    match goal with
    | |- context [goToStep ?l ?i st] =>
        destruct (goToStep_frame l i st) as (Hv & Hp & Ht)
    end; rewrite ?Hv, ?Hp, ?Ht, ?andb_true_r, ?andb_false_r; auto.
Qed.

(** X4. Navigation only moves the index and hides: after any sequence of
    calls the stored tooltip position and target are the ones before, and the
    tour is visible exactly if it was visible and no call was [skip]; no call
    shows a hidden tour again. *)
Theorem navigation_only_moves_and_hides (steps : list Step) acts st :
  let st' := performAll steps acts st in
  isVisibleState st' = (isVisibleState st && negb (existsb isSkip acts))%bool
  /\ tooltipPosition st' = tooltipPosition st
  /\ targetData st' = targetData st.
Proof.
  cbn. unfold performAll. revert st.
  induction acts as [|a acts IH]; intros st; cbn.
  - now rewrite andb_true_r.
  - destruct (IH (perform steps a st)) as (Hv & Hp & Ht).
    destruct (perform_frame steps a st) as (Hv' & Hp' & Ht').
    rewrite Hv, Hp, Ht, Hv', Hp', Ht'.
    rewrite negb_orb, andb_assoc. auto.
Qed.

Lemma onStep_inRange (steps : list Step) st :
  onStep steps st -> inRange steps st.
Proof.
  intros (i & E & Hi). unfold inRange, lengthQ. rewrite E.
  change 0 with (inject_Z 0). rewrite <- Zle_Qle, <- Zlt_Qlt. lia.
Qed.

(** X5. On one of the steps, where the index is a whole number: from a step
    that is not the last, [next] moves one step on and [prev] brings the
    index back; from a step that is not the first, [prev] moves one step back
    and [next] brings it back. *)
Theorem next_prev_round_trip (steps : list Step) st :
  onStep steps st ->
  (currentStepIndex st + 1 < lengthQ steps ->
   currentStepIndex (next steps st) = currentStepIndex st + 1
   /\ currentStepIndex (prev steps (next steps st)) == currentStepIndex st)
  /\ (1 <= currentStepIndex st ->
      currentStepIndex (prev steps st) = currentStepIndex st - 1
      /\ currentStepIndex (next steps (prev steps st)) == currentStepIndex st).
Proof.
  intros Hon. destruct (onStep_inRange _ _ Hon) as [Hlo Hhi]. split.
  - intros Hnext. unfold next at 2. unfold next at 1.
    rewrite goToStep_accepts by (split; lra). cbn. split; [reflexivity|].
    unfold prev. cbn. rewrite goToStep_accepts by (cbn; split; lra).
    cbn. ring.
  - intros Hprev. unfold prev at 2. unfold prev at 1.
    rewrite goToStep_accepts by (split; lra). cbn. split; [reflexivity|].
    unfold next. cbn. rewrite goToStep_accepts by (cbn; split; lra).
    cbn. ring.
Qed.

(** X6. At the ends nothing moves: [prev] on step 0 and [next] on the last
    step return the state unchanged. *)
Theorem navigation_stops_at_the_ends (steps : list Step) st :
  (currentStepIndex st == 0 -> prev steps st = st)
  /\ (currentStepIndex st + 1 == lengthQ steps -> next steps st = st).
Proof.
  split.
  - intros E. unfold prev. apply goToStep_rejects. left. rewrite E. reflexivity.
  - intros E. unfold next. apply goToStep_rejects. right. rewrite E. apply Qle_refl.
Qed.

(** X7. The last accepted [goToStep] wins: a call with an index in range
    makes that index current whatever the call before it did, and repeating
    a call changes nothing more. *)
Theorem goToStep_last_wins (steps : list Step) i j st :
  goToStep steps i (goToStep steps i st) = goToStep steps i st
  /\ (0 <= j < lengthQ steps ->
      goToStep steps j (goToStep steps i st) = goToStep steps j st
      /\ currentStepIndex (goToStep steps j st) = j).
Proof.
  split.
  - unfold goToStep.
    destruct (geb i (lengthQ steps) || ltb i 0)%bool; reflexivity.
  - intros Hj. split.
    + rewrite (goToStep_accepts steps j st Hj).
      rewrite (goToStep_accepts steps j (goToStep steps i st) Hj).
      unfold goToStep. destruct (geb i _ || ltb i 0)%bool; reflexivity.
    + now rewrite (goToStep_accepts steps j st Hj).
Qed.

(** X8. The keyboard: a key other than Escape, ArrowRight and ArrowLeft
    leaves the state as it is; Escape hides the tour; and no key takes an
    index in [0, steps.length) out of it. *)
Theorem keyPressHandler_keys (steps : list Step) key st :
  (key <> "Escape" -> key <> "ArrowRight" -> key <> "ArrowLeft" ->
   keyPressHandler steps key st = st)
  /\ isVisibleState (keyPressHandler steps "Escape" st) = false
  /\ keyPressHandler steps "ArrowRight" st = next steps st
  /\ keyPressHandler steps "ArrowLeft" st = prev steps st
  /\ (inRange steps st -> inRange steps (keyPressHandler steps key st)).
Proof.
  split; [|split; [|split; [|split]]]; try reflexivity.
  - intros H1 H2 H3. unfold keyPressHandler.
    apply String.eqb_neq in H1, H2, H3. now rewrite H1, H2, H3.
  - intros Hin. unfold keyPressHandler.
    destruct (String.eqb key "Escape"); [exact (perform_inRange steps Skip st Hin)|].
    destruct (String.eqb key "ArrowRight"); [exact (perform_inRange steps Next st Hin)|].
    destruct (String.eqb key "ArrowLeft"); [exact (perform_inRange steps Prev st Hin)|].
    exact Hin.
Qed.

(** ** More on indexing *)

(** X9. [getStep] returns a step exactly for a whole number that is a
    position of the array, and then the step at that position; a fraction, a
    negative number or a number past the end gives [undefined]. *)
Theorem getStep_some_iff (steps : list Step) stepIndex s :
  getStep stepIndex steps = Some s
  <-> exists n : nat, stepIndex == inject_Z (Z.of_nat n) /\ steps !! n = Some s.
Proof.
  unfold getStep. split.
  - destruct (arrayIndex stepIndex) as [i|] eqn:E; [|discriminate].
    intros Hs. exists i. split; [now apply arrayIndex_value | exact Hs].
  - intros (n & E & Hs). now rewrite (arrayIndex_whole _ _ E).
Qed.

(** ** More on the placement effect *)

(** X10. When the placement effect returns, the tour's visibility and step
    index are the ones before, and for a visible tour the current step exists,
    its selector found an element and the stored target is that element's
    rectangle; conversely, for a visible tour whose current step's selector
    finds an element, the effect returns. *)
Theorem placementEffect_outcome props document vp st :
  (forall st',
     placementEffect props document vp st = ok st' ->
     isVisibleState st' = isVisibleState st
     /\ currentStepIndex st' = currentStepIndex st
     /\ (isVisibleState st = true ->
         exists s element,
           getStep (currentStepIndex st) (steps props) = Some s
           /\ document_querySelector document (querySelector s)
              = ok (Some element)
           /\ targetData st' = Some (getBoundingClientRect element)))
  /\ (forall s element,
        getStep (currentStepIndex st) (steps props) = Some s ->
        document_querySelector document (querySelector s) = ok (Some element) ->
        exists st', placementEffect props document vp st = ok st').
Proof.
  unfold placementEffect, getTargetData. split.
  - intros st'. destruct (isVisibleState st) eqn:Hv; cbn [negb].
    + destruct (getStep _ _) as [s|]; cbn; [|discriminate].
      destruct (document_querySelector document (querySelector s))
        as [exn | [element|]] eqn:Q; cbn; try discriminate.
      intros [= <-]. cbn. rewrite Hv. repeat split. intros _. eauto.
    + intros [= <-]. rewrite Hv. repeat split. discriminate.
  - intros s element Hs Q. destruct (negb (isVisibleState st)); [eauto|].
    rewrite Hs. cbn. rewrite Q. cbn. eauto.
Qed.

(** ** More on rendering *)

(** X11. What the render throws by itself, for a visible tour without a
    custom tooltip renderer: the reading of [container] when [styles] is
    undefined, else the reading of [title] when the current step is
    undefined, in both cases before any callback of the caller is run; else,
    when the step brings no custom title, description or footer renderer,
    so that no callback is run at all, the render returns. *)
Theorem Walktour_own_throws props vp st :
  isVisibleState st = true ->
  read (customTooltipRenderer
          (mergedOptions props (getStep (currentStepIndex st) (steps props))))
  = None ->
  (read (styles (mergedOptions props
                   (getStep (currentStepIndex st) (steps props)))) = None ->
   Walktour props vp st = throw (TypeError "container"))
  /\ (forall sheet,
        read (styles (mergedOptions props
                        (getStep (currentStepIndex st) (steps props))))
        = Some sheet ->
        getStep (currentStepIndex st) (steps props) = None ->
        Walktour props vp st = throw (TypeError "title"))
  /\ (forall sheet s,
        read (styles (mergedOptions props
                        (getStep (currentStepIndex st) (steps props))))
        = Some sheet ->
        getStep (currentStepIndex st) (steps props) = Some s ->
        read (customTitleRenderer s) = None ->
        read (customDescriptionRenderer s) = None ->
        read (customFooterRenderer s) = None ->
        exists r, Walktour props vp st = ok (Some r)).
Proof.
  intros Hvisible Hcustom. unfold Walktour. cbv zeta.
  rewrite Hvisible, Hcustom. cbn [negb].
  split; [|split].
  - intros ->. reflexivity.
  - intros sheet -> ->. reflexivity.
  - intros sheet s -> -> Ht Hd Hf. cbn. rewrite Ht, Hd, Hf. cbn. eauto.
Qed.

(** X12. When a tour with a custom tooltip renderer is rendered, the content
    is that renderer's, and the tooltip's style holds nothing but the
    properties [tooltipStyle] writes: the container style is left out. *)
Theorem custom_tooltip_is_bare props vp st r renderer :
  Walktour props vp st = ok (Some r) ->
  read (customTooltipRenderer
          (mergedOptions props (getStep (currentStepIndex st) (steps props))))
  = Some renderer ->
  content r = CustomTooltip renderer
  /\ forall property,
       ~ In property tooltipStyleKeys -> tooltip r !! property = None.
Proof.
  unfold Walktour. cbv zeta. intros Hr Hc. rewrite Hc in Hr.
  destruct (negb (isVisibleState st)); [discriminate|].
  injection Hr as <-. split; [reflexivity|].
  intros property Hout. cbn [tooltip]. unfold tooltipStyle.
  rewrite !lookup_insert_ne; [apply lookup_empty|..];
    intros <-; apply Hout; unfold tooltipStyleKeys; cbn; tauto.
Qed.

(** X13. The six properties [tooltipStyle] writes do not depend on the style
    spread first, and every other property is the one of that style: a
    container style cannot move, hide or resize the tooltip, and everything
    else in it comes through. *)
Theorem tooltipStyle_over_container base w tr pos property :
  (In property tooltipStyleKeys ->
   tooltipStyle base w tr pos !! property = tooltipStyle ∅ w tr pos !! property
   /\ is_Some (tooltipStyle base w tr pos !! property))
  /\ (~ In property tooltipStyleKeys ->
      tooltipStyle base w tr pos !! property = base !! property).
Proof.
  unfold tooltipStyleKeys. split.
  - intros Hin. cbn in Hin.
    repeat (destruct Hin as [<- | Hin]); try tauto;
      unfold tooltipStyle; split; by simplify_map_eq.
  - intros Hout. unfold tooltipStyle.
    rewrite !lookup_insert_ne; [reflexivity|..];
      intros <-; apply Hout; cbn; tauto.
Qed.

(** X14. What the first render of a tour shows, if it shows anything: no
    mask and a hidden tooltip without [top] and [left], because the initial
    state has neither a target nor a position. *)
Theorem first_render_is_blank props vp r :
  Walktour props vp (initialState props) = ok (Some r) ->
  mask r = None
  /\ tooltip r !! "visibility" = Some (CssStr "hidden")
  /\ applied (tooltip r) "top" = None
  /\ applied (tooltip r) "left" = None.
Proof.
  intros Hr. split.
  - rewrite (Walktour_mask _ _ _ _ Hr). reflexivity.
  - destruct (Walktour_tooltip _ _ _ _ Hr) as (base & w & tr & ->).
    unfold applied.
    rewrite tooltipStyle_visibility, tooltipStyle_top, tooltipStyle_left.
    cbn. auto.
Qed.

(** X15. With no [maskPadding] and no [disableMaskInteraction] in the props
    or the current step, the mask a visible tour draws around a stored target
    is padded by the default 5 on every side, lets pointer events through
    and has rounded corners. *)
Theorem default_mask props vp st r target :
  let currentStepContent := getStep (currentStepIndex st) (steps props) in
  let step := match currentStepContent with
              | Some s => stepOptions s
              | None => noOptions
              end in
  Walktour props vp st = ok (Some r) ->
  targetData st = Some target ->
  maskPadding (propsOptions props) = Absent -> maskPadding step = Absent ->
  disableMaskInteraction (propsOptions props) = Absent ->
  disableMaskInteraction step = Absent ->
  exists style,
    mask r = Some style
    /\ style !! "left"
       = Some (CssNum (Coords.x (getElementCoords vp target true) - 5))
    /\ style !! "top"
       = Some (CssNum (Coords.y (getElementCoords vp target true) - 5))
    /\ style !! "width" = Some (CssNum (ClientRect.width target + 5 * 2))
    /\ style !! "height" = Some (CssNum (ClientRect.height target + 5 * 2))
    /\ style !! "pointerEvents" = Some (CssStr "none")
    /\ style !! "borderRadius" = Some (CssStr "5px").
Proof.
  intros currentStepContent step Hr Htarget Hp1 Hp2 Hd1 Hd2.
  rewrite (Walktour_mask _ _ _ _ Hr), Htarget.
  fold currentStepContent. unfold mergedOptions. fold step. cbn.
  rewrite Hp1, Hp2, Hd1, Hd2. cbn.
  eexists. split; [reflexivity|].
  repeat split; by simplify_map_eq.
Qed.

Lemma Walktour_buttons props vp st r theTitle theDescription style
    skipButton prevButton nextButton :
  Walktour props vp st = ok (Some r) ->
  content r = DefaultTooltip theTitle theDescription
                (Buttons style skipButton prevButton nextButton) ->
  (onClick skipButton = Skip /\ disabled skipButton = false)
  /\ (onClick prevButton = Prev
      /\ disabled prevButton = Qeq_bool (currentStepIndex st) 0)
  /\ (onClick nextButton = Next
      /\ disabled nextButton
         = Qeq_bool (currentStepIndex st + 1) (lengthQ (steps props))).
Proof.
  unfold Walktour.
  destruct (negb (isVisibleState st)); [discriminate|].
  destruct (read (customTooltipRenderer _)).
  - intros [= <-]. discriminate.
  - destruct (read (styles _)); cbn; [|discriminate].
    destruct (getStep _ _) as [s|]; cbn; [|discriminate].
    destruct (read (customFooterRenderer s)); cbn; intros [= <-]; cbn;
      [discriminate|].
    intros [= <- <- <- <- <- <-]. cbn. auto.
Qed.

(** X16. In the default footer the three buttons call [skip], [prev] and
    [next]; skip is never disabled, prev is disabled exactly on step 0 and
    next exactly on the last step, and a disabled button's call would leave
    the state as it is. *)
Theorem footer_buttons props vp st r theTitle theDescription style
    skipButton prevButton nextButton :
  Walktour props vp st = ok (Some r) ->
  content r = DefaultTooltip theTitle theDescription
                (Buttons style skipButton prevButton nextButton) ->
  onClick skipButton = Skip /\ disabled skipButton = false
  /\ onClick prevButton = Prev /\ onClick nextButton = Next
  /\ (disabled prevButton = true <-> currentStepIndex st == 0)
  /\ (disabled nextButton = true
      <-> currentStepIndex st + 1 == lengthQ (steps props))
  /\ (disabled prevButton = true ->
      perform (steps props) (onClick prevButton) st = st)
  /\ (disabled nextButton = true ->
      perform (steps props) (onClick nextButton) st = st).
Proof.
  intros Hr Hcontent.
  destruct (Walktour_buttons _ _ _ _ _ _ _ _ _ _ Hr Hcontent)
    as ((Hs & Hsd) & (Hp & Hpd) & (Hn & Hnd)).
  rewrite Hs, Hsd, Hp, Hpd, Hn, Hnd. repeat split; try apply Qeq_bool_iff.
  - intros E. apply Qeq_bool_iff in E. cbn. unfold prev.
    apply goToStep_rejects. left. rewrite E. reflexivity.
  - intros E. apply Qeq_bool_iff in E. cbn. unfold next.
    apply goToStep_rejects. right. rewrite E. apply Qle_refl.
Qed.

(** X17. Once the placement effect of a visible tour has returned, the next
    render draws a mask, and shows the tooltip exactly if the tooltip element
    was in the document to be measured; otherwise the tooltip stays hidden. *)
Theorem tooltip_shown_once_measured props document vp st st' r :
  isVisibleState st = true ->
  placementEffect props document vp st = ok st' ->
  Walktour props vp st' = ok (Some r) ->
  is_Some (mask r)
  /\ (is_Some (document_getElementById document "walktour-tooltip") ->
      tooltip r !! "visibility" = Some (CssStr "visible"))
  /\ (document_getElementById document "walktour-tooltip" = None ->
      tooltip r !! "visibility" = Some (CssStr "hidden")).
Proof.
  intros Hv Hrun Hr.
  destruct (placementEffect_request _ _ _ _ _ Hv Hrun)
    as (found & p & sep & os & Hpos).
  split.
  - rewrite (Walktour_mask _ _ _ _ Hr).
    revert Hrun. unfold placementEffect. rewrite Hv. cbn.
    destruct (ofStep _ _ _) as [e | selector]; cbn; [discriminate|].
    destruct (getTargetData document selector) as [e | target]; cbn;
      [discriminate|].
    intros [= <-]. cbn. eauto.
  - destruct (Walktour_tooltip _ _ _ _ Hr) as (base & w & tr & ->).
    rewrite tooltipStyle_visibility, Hpos. unfold getTooltipPosition. cbn.
    split.
    + intros [element ->]. reflexivity.
    + intros ->. reflexivity.
Qed.

(** ** More on the options *)

Lemma spread_assoc {A} (a b c : Optional A) :
  spread (spread a b) c = spread a (spread b c).
Proof. now destruct c. Qed.

Lemma spread_Absent_l {A} (a : Optional A) : spread Absent a = a.
Proof. now destruct a. Qed.

Lemma spread_same {A} (a : Optional A) : spread a a = a.
Proof. now destruct a. Qed.

(** X18. Spreading options is associative, spreading an object without
    options on either side changes nothing, and spreading an object over
    itself gives it back; so a step without options of its own is rendered
    with the tour's options, as a step that does not exist is, and a tour
    without options with the defaults. *)
Theorem spreadOptions_laws (a b c : WalktourOptions) props s :
  spreadOptions (spreadOptions a b) c = spreadOptions a (spreadOptions b c)
  /\ spreadOptions a noOptions = a
  /\ spreadOptions noOptions a = a
  /\ spreadOptions a a = a
  /\ (stepOptions s = noOptions ->
      mergedOptions props (Some s) = mergedOptions props None)
  /\ (propsOptions props = noOptions ->
      mergedOptions props None = walktourDefaultProps).
Proof.
  split; [|split; [|split; [|split; [|split]]]].
  - unfold spreadOptions. cbn. now rewrite !spread_assoc.
  - now destruct a.
  - destruct a. unfold spreadOptions. cbn. now rewrite !spread_Absent_l.
  - destruct a. unfold spreadOptions. cbn. now rewrite !spread_same.
  - intros E. unfold mergedOptions. now rewrite E.
  - intros E. unfold mergedOptions. rewrite E. reflexivity.
Qed.

(** ** More on the mask and the content *)

(** X19. The two switches of [TourMask] change nothing but their own
    property: the mask takes pointer events exactly when
    [disableMaskInteraction] is true, has square corners exactly when
    [roundedCutout] is false, and lies where it lies whatever they are. *)
Theorem TourMask_switches vp target disableMaskInteraction padding
    roundedCutout :
  exists style plain,
    TourMask vp (Some target) disableMaskInteraction padding roundedCutout
    = Some style
    /\ TourMask vp (Some target) None padding None = Some plain
    /\ style !! "pointerEvents"
       = Some (CssStr (if default false disableMaskInteraction
                       then "auto" else "none"))
    /\ style !! "borderRadius"
       = Some (if default true roundedCutout then CssStr "5px" else CssNum 0)
    /\ forall property,
         property <> "pointerEvents" -> property <> "borderRadius" ->
         style !! property = plain !! property.
Proof.
  do 2 eexists. split; [reflexivity|]. split; [reflexivity|].
  split; [by simplify_map_eq|]. split; [by simplify_map_eq|].
  intros property Hp Hb.
  rewrite !(lookup_insert_ne _ "pointerEvents") by congruence.
  rewrite !(lookup_insert_ne _ "borderRadius") by congruence.
  reflexivity.
Qed.

(** X20. Whatever the default tooltip shows as title and description is the
    current step's title and description, whether a custom renderer or the
    plain block shows it. *)
Theorem content_is_the_current_step props vp st r theTitle theDescription
    theFooter :
  Walktour props vp st = ok (Some r) ->
  content r = DefaultTooltip theTitle theDescription theFooter ->
  exists s,
    getStep (currentStepIndex st) (steps props) = Some s
    /\ partText theTitle = Some (title s)
    /\ partText theDescription = Some (description s).
Proof.
  unfold Walktour.
  destruct (negb (isVisibleState st)); [discriminate|].
  destruct (read (customTooltipRenderer _)).
  - intros [= <-]. discriminate.
  - destruct (read (styles _)); cbn; [|discriminate].
    destruct (getStep _ _) as [s|]; cbn; [|discriminate].
    destruct (read (customTitleRenderer s)), (read (customDescriptionRenderer s)),
      (read (customFooterRenderer s)); cbn;
      intros [= <-]; cbn; intros [= <- <- <-]; eauto.
Qed.

(** ** Staying on a step *)

(** X21. A tour that is on one of its steps stays on one under any sequence
    of calls whose arguments are whole numbers: the current step exists, the
    render does not throw on reading its title, and whatever the placement
    effect throws is what the lookup of that step's target threw. *)
Theorem whole_navigation_keeps_the_step props document vp acts st :
  onStep (steps props) st ->
  Forall wholeStep acts ->
  let st' := performAll (steps props) acts st in
  exists s,
    getStep (currentStepIndex st') (steps props) = Some s
    /\ Walktour props vp st' <> throw (TypeError "title")
    /\ forall exn,
         placementEffect props document vp st' = throw exn ->
         getTargetData document (querySelector s) = throw exn.
Proof.
  intros Hon Hwhole st'.
  destruct (getStep_onStep _ _ (performAll_onStep _ _ _ Hwhole Hon)) as [s Hs].
  fold st' in Hs. exists s. split; [exact Hs|]. split.
  - unfold Walktour. rewrite Hs.
    destruct (negb (isVisibleState st')); [discriminate|].
    destruct (read (customTooltipRenderer _)); [discriminate|].
    destruct (read (styles _)); cbn; [|discriminate].
    destruct (read (customFooterRenderer s)); cbn; discriminate.
  - intros exn. unfold placementEffect. rewrite Hs.
    destruct (negb (isVisibleState st')); [discriminate|]. cbn.
    destruct (getTargetData document (querySelector s)) as [e | found]; cbn;
      [|discriminate].
    now intros [= ->].
Qed.

(** X22. [goToStep] takes any number in [0, steps.length), whole or not:
    after a call with a fraction the index is that fraction, there is no
    current step, and a visible tour's placement effect throws on reading
    the step's selector. *)
Theorem goToStep_takes_fractions props document vp stepIndex st :
  0 <= stepIndex < lengthQ (steps props) ->
  (forall z : Z, ~ stepIndex == inject_Z z) ->
  let st' := goToStep (steps props) stepIndex st in
  currentStepIndex st' = stepIndex
  /\ getStep (currentStepIndex st') (steps props) = None
  /\ (isVisibleState st = true ->
      placementEffect props document vp st' = throw (TypeError "querySelector")).
Proof.
  intros Hin Hfraction st'. subst st'. rewrite goToStep_accepts by exact Hin.
  cbn [currentStepIndex setCurrentStepIndex].
  assert (Hnone : getStep stepIndex (steps props) = None).
  { unfold getStep. destruct (arrayIndex stepIndex) as [i|] eqn:E; [|reflexivity].
    apply arrayIndex_value in E. now destruct (Hfraction (Z.of_nat i)). }
  split; [reflexivity|]. split; [exact Hnone|].
  intros Hv. unfold placementEffect. cbn. now rewrite Hv, Hnone.
Qed.


End Properties.

(** * The properties at work *)

Section Scenarios.

Import Sample.
#[local] Existing Instance cardinal.
#[local] Existing Instance plain.

(** Spec 8, scenario 1: south of the target, below the padded mask. *)
Example scenario_south :
  getTooltipPosition window (request target (Some tip) (Some [South]))
  = Some (Coords.mk 25 165).
Proof. reflexivity. Qed.

(** Spec 8, scenario 2: south does not fit near the bottom edge and is
    kept. *)
Example scenario_south_overflows :
  getTooltipPosition window (request lowTarget (Some tip) (Some [South]))
  = Some (Coords.mk 25 765)
  /\ 768 - ClientRect.height tip < 765.
Proof. split; reflexivity. Qed.

(** Spec 8, scenario 3. *)
Example scenario_missing :
  getTargetData page "#missing"
  = throw (Error ("element specified by  " +:+ quote +:+ "#missing" +:+ quote
                  +:+ " could not be found")).
Proof. reflexivity. Qed.

Example getStep_examples :
  getStep 1 tour = Some (step "#second")
  /\ getStep (4 # 2) tour = None
  /\ getStep (2 # 2) tour = Some (step "#second")
  /\ getStep (1 # 2) tour = None
  /\ getStep (-1) tour = None.
Proof. repeat split; reflexivity. Qed.

(** South and north both fit and south comes first; near the bottom edge
    south does not fit and north, the next one, does. *)
Lemma getTooltipPosition_first_fit_witness :
  getTooltipPosition window
    (request target (Some tip) (Some [South; North; West]))
  = Some (Coords.mk 25 165)
  /\ getTooltipPosition window
       (request lowTarget (Some tip) (Some [South; North; West]))
     = Some (Coords.mk 25 605).
Proof.
  split.
  - apply (getTooltipPosition_first_fit window
             (request target (Some tip) (Some [South; North; West]))
             tip [] South [North; West]); try reflexivity.
    intros o' [].
  - apply (getTooltipPosition_first_fit window
             (request lowTarget (Some tip) (Some [South; North; West]))
             tip [South] North [West]); try reflexivity.
    intros o' [<- | []]. reflexivity.
Defined.

Lemma getTooltipPosition_fallback_witness :
  getTooltipPosition window
    (request lowTarget (Some tip) (Some [South; West]))
  = Some (Coords.mk 25 765).
Proof.
  apply (getTooltipPosition_fallback window
           (request lowTarget (Some tip) (Some [South; West]))
           tip South [West]); try reflexivity.
  intros o' [<- | [<- | []]]; reflexivity.
Defined.

Lemma getTooltipPosition_unmeasured_witness :
  getTooltipPosition window (request target None (Some [South])) = None
  /\ exists st',
       placementEffect (props Absent) firstPaint window
                       (initialState (props Absent)) = ok st'
       /\ targetData st' = Some target
       /\ tooltipPosition st' = None.
Proof.
  split.
  - exact (proj1 (getTooltipPosition_unmeasured window target (Some 5)
                    (Some 10) (Some [South]))).
  - eexists. split; [reflexivity|]. split; [reflexivity|].
    apply (proj2 (getTooltipPosition_unmeasured window target None None None)
                 (props Absent) firstPaint (initialState (props Absent)));
      reflexivity.
Defined.

Lemma getTargetData_found_or_thrown_witness :
  getTargetData page "#first" = ok target
  /\ (exists exn,
        getTargetData emptyPage "#first" = throw exn
        /\ placementEffect (props Absent) emptyPage window
                           (initialState (props Absent)) = throw exn)
  /\ (exists exn,
        getTargetData page "##" = throw exn
        /\ placementEffect (mkProps options [step "##"] true Absent) page window
                           (initialState (props Absent)) = throw exn).
Proof.
  split; [|split].
  - apply (proj1 (getTargetData_found_or_thrown page "#first")
                 (mkElement target)).
    reflexivity.
  - destruct (proj2 (proj2 (getTargetData_found_or_thrown emptyPage "#first")))
      as (exn & Hthrown & Hsurfaced).
    + intros element. discriminate.
    + exists exn. split; [exact Hthrown|].
      apply (Hsurfaced (props Absent) window (initialState (props Absent))
                       (step "#first")); reflexivity.
  - destruct (proj2 (proj2 (getTargetData_found_or_thrown page "##")))
      as (exn & Hthrown & Hsurfaced).
    + intros element. discriminate.
    + exists exn. split; [exact Hthrown|].
      apply (Hsurfaced (mkProps options [step "##"] true Absent) window
                       (initialState (props Absent)) (step "##")); reflexivity.
Defined.

Lemma tooltip_hidden_until_positioned_witness :
  (exists r,
     Walktour (props Absent) window
              (mkState true None (Some target) 0) = ok (Some r)
     /\ tooltip r !! "visibility" = Some (CssStr "hidden")
     /\ applied (tooltip r) "top" = None
     /\ applied (tooltip r) "left" = None)
  /\ (exists r,
        Walktour (props Absent) window
                 (mkState true (Some (Coords.mk 25 165)) (Some target) 0)
        = ok (Some r)
        /\ tooltip r !! "visibility" = Some (CssStr "visible")
        /\ applied (tooltip r) "top" = Some (CssNum 165)
        /\ applied (tooltip r) "left" = Some (CssNum 25)).
Proof.
  split.
  - eexists. split; [reflexivity|].
    exact (proj1 (tooltip_hidden_until_positioned (props Absent) window
                    (mkState true None (Some target) 0) _ eq_refl)).
  - eexists. split; [reflexivity|].
    exact (proj1 (tooltip_hidden_until_positioned (props Absent) window
                    (mkState true (Some (Coords.mk 25 165)) (Some target) 0)
                    _ eq_refl)).
Defined.

Lemma defaults_under_overrides_witness :
  (exists st',
     placementEffect (props Absent) page window (initialState (props Absent))
     = ok st'
     /\ exists found,
          tooltipPosition st'
          = getTooltipPosition window
              (Request.mk found (Some tip) (Some 5) (Some 10) None))
  /\ read (maskPadding
             (mergedOptions
                (mkProps (mkOptions Absent Absent (Present (Some 8)) Absent
                            Absent Absent Absent Absent Absent Absent Absent)
                         tour true Absent)
                (Some (step "#first"))))
     = Some 8.
Proof.
  split.
  - eexists. split; [reflexivity|].
    destruct (defaults_under_overrides (props Absent) page window
                (initialState (props Absent)))
      as (_ & _ & Hdefault & _).
    destruct Hdefault as [Heffect _]; try reflexivity.
    exact (Heffect _ eq_refl eq_refl).
  - destruct (defaults_under_overrides
                (mkProps (mkOptions Absent Absent (Present (Some 8)) Absent
                            Absent Absent Absent Absent Absent Absent Absent)
                         tour true Absent)
                page window (mkState true None None 0))
      as (_ & _ & _ & _ & _ & Hprops & _).
    apply Hprops; reflexivity.
Defined.

(** A [maskPadding] given as [undefined] is no value, and yet the default is
    lost: the merged padding is undefined and the engine is handed that. *)
Lemma undefined_padding_loses_the_default :
  read (maskPadding (propsOptions undefinedPaddingProps)) = None
  /\ maskPadding (stepOptions (step "#first")) = Absent
  /\ read (maskPadding
             (mergedOptions undefinedPaddingProps (Some (step "#first"))))
     <> Some 5
  /\ exists st',
       placementEffect undefinedPaddingProps page window
                       (initialState undefinedPaddingProps) = ok st'
       /\ tooltipPosition st'
          = getTooltipPosition window
              (Request.mk target (Some tip) None (Some 10) None)
       /\ tooltipPosition st'
          <> getTooltipPosition window
               (Request.mk target (Some tip) (Some 5) (Some 10) None).
Proof.
  split; [reflexivity|]. split; [reflexivity|]. split; [discriminate|].
  eexists. split; [reflexivity|]. split; [reflexivity|]. discriminate.
Qed.

Lemma stepIndex_stays_in_range_witness :
  Double.goToStep tour 2 (Double.mkState true None None 0)
  = Double.mkState true None None 0
  /\ Double.goToStep tour (-1) (Double.mkState true None None 0)
     = Double.mkState true None None 0
  /\ Double.inRange tour
       (Double.performAll tour
          [Double.Next; Double.Next; Double.Prev; Double.GoToStep 7;
           Double.GoToStep 0.5; Double.Next; Double.GoToStep infinity;
           Double.Skip; Double.Next]
          (Double.mkState true None None 0)).
Proof.
  split; [|split].
  - apply (proj1 (stepIndex_stays_in_range tour)). right. reflexivity.
  - apply (proj1 (stepIndex_stays_in_range tour)). left. reflexivity.
  - apply (proj2 (stepIndex_stays_in_range tour)).
    + repeat constructor.
    + split; reflexivity.
Defined.

(** [goToStep(NaN)] passes both comparisons of the guard: from step 0 of two
    steps the index becomes [NaN], which is not in [0, steps.length). *)
Lemma goToStep_NaN_leaves_the_range :
  Double.inRange tour (Double.mkState true None None 0)
  /\ Double.currentStepIndex
       (Double.performAll tour [Double.GoToStep nan]
                          (Double.mkState true None None 0)) = nan
  /\ ~ Double.inRange tour
        (Double.performAll tour [Double.GoToStep nan]
                           (Double.mkState true None None 0)).
Proof.
  split; [split; reflexivity|]. split; [reflexivity|].
  intros [Hlo _]. discriminate Hlo.
Qed.

Lemma initialStepIndex_unchecked_witness :
  let st := initialState (props (Present (Some 2))) in
  lengthQ tour <= currentStepIndex st
  /\ getStep (currentStepIndex st) tour = None
  /\ placementEffect (props (Present (Some 2))) page window st
     = throw (TypeError "querySelector")
  /\ exists property,
       Walktour (props (Present (Some 2))) window st
       = throw (TypeError property).
Proof.
  destruct (initialStepIndex_unchecked (props (Present (Some 2))) 2)
    as (Hidx & Hstep & _ & Heffect & Hrender).
  - reflexivity.
  - discriminate.
  - intros st. split; [|split; [|split]].
    + exact Hidx.
    + exact Hstep.
    + apply Heffect. reflexivity.
    + apply Hrender; reflexivity.
Defined.

(** ** More of them *)

Lemma hidden_tour_is_inert_witness :
  Walktour (props Absent) window (mkState false None None 5) = ok None
  /\ placementEffect (props Absent) emptyPage window (mkState false None None 5)
     = ok (mkState false None None 5).
Proof.
  exact (hidden_tour_is_inert (props Absent) emptyPage window
           (mkState false None None 5) eq_refl).
Defined.

Lemma skip_hides_and_rewinds_witness :
  isVisibleState (skip tour (mkState true None None 1)) = false
  /\ currentStepIndex (skip tour (mkState true None None 1)) = 0
  /\ currentStepIndex (skip [] (mkState true None None 1)) = 1.
Proof.
  destruct (skip_hides_and_rewinds (props Absent) window
              (mkState true None None 1)) as (Hhidden & _ & Hrewound & _).
  destruct (skip_hides_and_rewinds noSteps window
              (mkState true None None 1)) as (_ & _ & _ & Hkept & _).
  split; [exact Hhidden|]. split.
  - apply Hrewound. discriminate.
  - apply Hkept. reflexivity.
Defined.

Lemma next_prev_round_trip_witness :
  currentStepIndex (next tour (mkState true None None 0)) = 0 + 1
  /\ currentStepIndex (prev tour (next tour (mkState true None None 0))) == 0
  /\ currentStepIndex (prev tour (mkState true None None 1)) = 1 - 1
  /\ currentStepIndex (next tour (prev tour (mkState true None None 1))) == 1.
Proof.
  destruct (next_prev_round_trip tour (mkState true None None 0))
    as [Hforth _]; [exists 0%nat; split; [reflexivity | cbn; lia]|].
  destruct (next_prev_round_trip tour (mkState true None None 1))
    as [_ Hback]; [exists 1%nat; split; [reflexivity | cbn; lia]|].
  destruct Hforth as [A B]; [reflexivity|].
  destruct Hback as [C D]; [discriminate|].
  split; [exact A|]. split; [exact B|]. split; [exact C | exact D].
Defined.

Lemma navigation_stops_at_the_ends_witness :
  prev tour (mkState true None None 0) = mkState true None None 0
  /\ next tour (mkState true None None 1) = mkState true None None 1.
Proof.
  split.
  - apply (proj1 (navigation_stops_at_the_ends tour (mkState true None None 0))).
    reflexivity.
  - apply (proj2 (navigation_stops_at_the_ends tour (mkState true None None 1))).
    reflexivity.
Defined.

Lemma goToStep_last_wins_witness :
  goToStep tour 1 (goToStep tour 7 (mkState true None None 0))
  = goToStep tour 1 (mkState true None None 0)
  /\ currentStepIndex (goToStep tour 1 (mkState true None None 0)) = 1.
Proof.
  apply (proj2 (goToStep_last_wins tour 7 1 (mkState true None None 0))).
  split; [discriminate | reflexivity].
Defined.

Lemma keyPressHandler_keys_witness :
  keyPressHandler tour "Enter" (mkState true None None 1)
  = mkState true None None 1
  /\ inRange tour (keyPressHandler tour "ArrowRight" (mkState true None None 1)).
Proof.
  split.
  - apply (proj1 (keyPressHandler_keys tour "Enter" (mkState true None None 1)));
      discriminate.
  - apply (proj2 (proj2 (proj2 (proj2
             (keyPressHandler_keys tour "ArrowRight"
                                   (mkState true None None 1)))))).
    split; [discriminate | reflexivity].
Defined.

Lemma getStep_some_iff_witness :
  getStep (2 # 2) tour = Some (step "#second")
  /\ exists n : nat, 1 == inject_Z (Z.of_nat n) /\ tour !! n = Some (step "#second").
Proof.
  split.
  - apply (proj2 (getStep_some_iff tour (2 # 2) (step "#second"))).
    exists 1%nat. split; reflexivity.
  - apply (proj1 (getStep_some_iff tour 1 (step "#second"))). reflexivity.
Defined.

Lemma placementEffect_outcome_witness :
  exists st',
    placementEffect (props Absent) page window (mkState true None None 1)
    = ok st'
    /\ isVisibleState st' = true
    /\ currentStepIndex st' = 1
    /\ exists s element,
         getStep 1 tour = Some s
         /\ document_querySelector page (querySelector s) = ok (Some element)
         /\ targetData st' = Some (getBoundingClientRect element).
Proof.
  destruct (proj2 (placementEffect_outcome (props Absent) page window
                     (mkState true None None 1))
              (step "#second") (mkElement lowTarget) eq_refl eq_refl)
    as [st' Hrun].
  exists st'. split; [exact Hrun|].
  destruct (proj1 (placementEffect_outcome (props Absent) page window
                     (mkState true None None 1)) st' Hrun)
    as (Hvisible & Hindex & Hfound).
  split; [exact Hvisible|]. split; [exact Hindex|].
  exact (Hfound eq_refl).
Defined.

Lemma Walktour_own_throws_witness :
  Walktour (props Absent) window (mkState true None None 2)
  = throw (TypeError "title")
  /\ exists r,
       Walktour (props Absent) window (mkState true None None 1) = ok (Some r).
Proof.
  split.
  - apply (proj1 (proj2 (Walktour_own_throws (props Absent) window
                           (mkState true None None 2) eq_refl eq_refl))
                 plain.(defaultStyles)); reflexivity.
  - apply (proj2 (proj2 (Walktour_own_throws (props Absent) window
                           (mkState true None None 1) eq_refl eq_refl))
                 plain.(defaultStyles) (step "#second")); reflexivity.
Defined.

Lemma custom_tooltip_is_bare_witness :
  exists r,
    Walktour (customProps Absent) window (mkState true None None 0)
    = ok (Some r)
    /\ content r = CustomTooltip "drawTooltip"
    /\ tooltip r !! "color" = None.
Proof.
  eexists. split; [reflexivity|].
  destruct (custom_tooltip_is_bare (customProps Absent) window
              (mkState true None None 0) _ "drawTooltip" eq_refl eq_refl)
    as (Hcontent & Hbare).
  split; [exact Hcontent|]. apply Hbare. cbn. intuition discriminate.
Defined.

Lemma tooltipStyle_over_container_witness :
  tooltipStyle pushy None None None !! "top"
  = tooltipStyle ∅ None None None !! "top"
  /\ tooltipStyle pushy None None None !! "color" = Some (CssStr "red").
Proof.
  split.
  - apply (proj1 (tooltipStyle_over_container pushy None None None "top")).
    cbn. tauto.
  - rewrite (proj2 (tooltipStyle_over_container pushy None None None "color")).
    + reflexivity.
    + cbn. intuition discriminate.
Defined.

Lemma first_render_is_blank_witness :
  exists r,
    Walktour (props Absent) window (initialState (props Absent)) = ok (Some r)
    /\ mask r = None
    /\ tooltip r !! "visibility" = Some (CssStr "hidden").
Proof.
  eexists. split; [reflexivity|].
  destruct (first_render_is_blank (props Absent) window _ eq_refl)
    as (Hmask & Hhidden & _).
  split; [exact Hmask | exact Hhidden].
Defined.

Lemma default_mask_witness :
  exists r style,
    Walktour (props Absent) window (mkState true None (Some target) 0)
    = ok (Some r)
    /\ mask r = Some style
    /\ style !! "width" = Some (CssNum (50 + 5 * 2))
    /\ style !! "pointerEvents" = Some (CssStr "none").
Proof.
  eexists.
  destruct (default_mask (props Absent) window
              (mkState true None (Some target) 0) _ target
              eq_refl eq_refl eq_refl eq_refl eq_refl eq_refl)
    as (style & Hmask & _ & _ & Hwidth & _ & Hpointer & _).
  exists style. split; [reflexivity|].
  split; [exact Hmask|]. split; [exact Hwidth | exact Hpointer].
Defined.

Lemma footer_buttons_witness :
  exists r theTitle theDescription style skipButton prevButton nextButton,
    Walktour (props Absent) window (mkState true None None 0) = ok (Some r)
    /\ content r = DefaultTooltip theTitle theDescription
                     (Buttons style skipButton prevButton nextButton)
    /\ disabled prevButton = true
    /\ perform tour (onClick prevButton) (mkState true None None 0)
       = mkState true None None 0.
Proof.
  do 7 eexists. split; [reflexivity|]. split; [reflexivity|].
  destruct (footer_buttons (props Absent) window (mkState true None None 0)
              _ _ _ _ _ _ _ eq_refl eq_refl)
    as (_ & _ & _ & _ & Hfirst & _ & Hinert & _).
  assert (Hdisabled := proj2 Hfirst (Qeq_refl 0)).
  split; [exact Hdisabled | exact (Hinert Hdisabled)].
Defined.

Lemma tooltip_shown_once_measured_witness :
  (exists st' r,
     placementEffect (props Absent) page window (initialState (props Absent))
     = ok st'
     /\ Walktour (props Absent) window st' = ok (Some r)
     /\ is_Some (mask r)
     /\ tooltip r !! "visibility" = Some (CssStr "visible"))
  /\ (exists st' r,
        placementEffect (props Absent) firstPaint window
                        (initialState (props Absent)) = ok st'
        /\ Walktour (props Absent) window st' = ok (Some r)
        /\ tooltip r !! "visibility" = Some (CssStr "hidden")).
Proof.
  split.
  - do 2 eexists. split; [reflexivity|]. split; [reflexivity|].
    destruct (tooltip_shown_once_measured (props Absent) page window
                (initialState (props Absent)) _ _ eq_refl eq_refl eq_refl)
      as (Hmask & Hshown & _).
    split; [exact Hmask|]. apply Hshown. eexists. reflexivity.
  - do 2 eexists. split; [reflexivity|]. split; [reflexivity|].
    destruct (tooltip_shown_once_measured (props Absent) firstPaint window
                (initialState (props Absent)) _ _ eq_refl eq_refl eq_refl)
      as (_ & _ & Hhidden).
    apply Hhidden. reflexivity.
Defined.

Lemma spreadOptions_laws_witness :
  mergedOptions (props Absent) (Some (step "#first"))
  = mergedOptions (props Absent) None
  /\ mergedOptions (props Absent) None = walktourDefaultProps.
Proof.
  destruct (spreadOptions_laws options options options (props Absent)
              (step "#first")) as (_ & _ & _ & _ & Hstep & Hprops).
  split; [apply Hstep | apply Hprops]; reflexivity.
Defined.

Lemma TourMask_switches_witness :
  exists style plain,
    TourMask window (Some target) (Some true) (Some 5) (Some false) = Some style
    /\ TourMask window (Some target) None (Some 5) None = Some plain
    /\ style !! "pointerEvents" = Some (CssStr "auto")
    /\ style !! "borderRadius" = Some (CssNum 0)
    /\ style !! "left" = plain !! "left".
Proof.
  destruct (TourMask_switches window target (Some true) (Some 5) (Some false))
    as (style & plain & Hstyle & Hplain & Hpointer & Hradius & Hsame).
  exists style, plain. split; [exact Hstyle|]. split; [exact Hplain|].
  split; [exact Hpointer|]. split; [exact Hradius|].
  apply Hsame; discriminate.
Defined.

Lemma content_is_the_current_step_witness :
  exists r theTitle theDescription theFooter,
    Walktour (props Absent) window (mkState true None None 1) = ok (Some r)
    /\ content r = DefaultTooltip theTitle theDescription theFooter
    /\ exists s,
         getStep 1 tour = Some s
         /\ partText theTitle = Some (title s)
         /\ partText theDescription = Some (description s).
Proof.
  do 4 eexists. split; [reflexivity|]. split; [reflexivity|].
  exact (content_is_the_current_step (props Absent) window
           (mkState true None None 1) _ _ _ _ eq_refl eq_refl).
Defined.

Lemma whole_navigation_keeps_the_step_witness :
  exists s,
    getStep (currentStepIndex
               (performAll tour [Next; GoToStep 1; Prev; GoToStep 9; Next; Next]
                           (mkState true None None 0)))
            tour = Some s.
Proof.
  destruct (whole_navigation_keeps_the_step (props Absent) page window
              [Next; GoToStep 1; Prev; GoToStep 9; Next; Next]
              (mkState true None None 0)) as (s & Hs & _).
  - exists 0%nat. split; [reflexivity | cbn; lia].
  - repeat constructor; [exists 1%Z | exists 9%Z]; reflexivity.
  - exists s. exact Hs.
Defined.

Lemma goToStep_takes_fractions_witness :
  currentStepIndex (goToStep tour (1 # 2) (mkState true None None 0)) = 1 # 2
  /\ getStep (1 # 2) tour = None
  /\ placementEffect (props Absent) page window
                     (goToStep tour (1 # 2) (mkState true None None 0))
     = throw (TypeError "querySelector").
Proof.
  destruct (goToStep_takes_fractions (props Absent) page window (1 # 2)
              (mkState true None None 0)) as (Hindex & Hnone & Hthrown).
  - split; [discriminate | reflexivity].
  - intros z E. unfold Qeq in E. cbn in E. lia.
  - split; [exact Hindex|]. split; [exact Hnone|]. apply Hthrown. reflexivity.
Defined.


End Scenarios.
